(** * SIGE stock ledger: the transactional API of [api/main.py]

    A shallow embedding of the three tables of the OLTP model, of the
    SQLAlchemy session the endpoints work through, and of the endpoints
    [cadastrar_produto], [lancar_movimentacao], [consultar_saldo] and
    [listar_produtos], followed by the properties of the ledger.

    Python [int] is [Z], [str] is [string], [float] is a binary64 float,
    a [DateTime] is a number of seconds.  A table is the list of its rows,
    in insertion order; the primary key of [produto] and [saldo_estoque]
    is enforced by the insert, as the storage engine does. *)

From Stdlib Require Import ZArith List String Bool Lia DecimalString Floats.
Import ListNotations.

Local Open Scope Z_scope.
Local Open Scope string_scope.

(** ** Rows of the three tables *)

Module Produto.
Record row : Type := mk
  { sku_id : string;
    nome : string;
    nivel_minimo : Z;
    nivel_maximo : Z;
    custo_fabricacao : float }.
End Produto.

Module Saldo.
Record row : Type := mk
  { sku_id : string;
    saldo_atual : Z;
    ultima_atualizacao : Z }.
End Saldo.

Module Movimentacao.
Record row : Type := mk
  { mov_id : Z;
    sku_id : string;
    data_movimentacao : Z;
    tipo_movimentacao : string;
    quantidade : Z }.
End Movimentacao.

(** ** Request bodies (the pydantic models) *)

Module ProdutoCreate.
Record t : Type := mk
  { sku_id : string;
    nome : string;
    nivel_minimo : Z;
    nivel_maximo : Z;
    custo_fabricacao : float }.
End ProdutoCreate.

Module MovimentacaoCreate.
Record t : Type := mk
  { sku_id : string;
    tipo_movimentacao : string;
    quantidade : Z }.
End MovimentacaoCreate.

(** ** Response bodies *)

Record CadastroResponse : Type :=
  { cad_message : string; cad_sku : string }.

Record MovimentacaoResponse : Type :=
  { message : string;
    sku : string;
    novo_saldo : Z;
    alerta_estoque_minimo : bool }.

(** One element of the list [listar_produtos] returns; the fields are the
    keys of the dictionary, in the order the source writes them. *)
Record ProdutoListado : Type :=
  { l_SKU : string;
    l_Nome : string;
    l_Saldo_Atual : Z;
    l_Nivel_Minimo : Z;
    l_Custo : float;
    l_Ultima_Atualizacao : Z }.

(** ** The database *)

Record Tables : Type :=
  { produto : list Produto.row;
    saldo_estoque : list Saldo.row;
    movimentacao_estoque : list Movimentacao.row }.

(** The committed tables and the sequence behind the autoincrement column
    [mov_id].  The sequence is the engine's: a value it has handed out is
    not handed out again, also when the transaction that took it is rolled
    back. *)
Record Database : Type :=
  { tables : Tables;
    mov_id_seq : Z }.

Definition empty_tables : Tables :=
  {| produto := []; saldo_estoque := []; movimentacao_estoque := [] |}.

Definition empty_database : Database :=
  {| tables := empty_tables; mov_id_seq := 1 |}.

(** ** Exceptions and outcomes *)

Inductive exn : Type :=
| HTTPException (status_code : Z) (detail : string)
| DBAPIError (msg : string).

Inductive outcome (A : Type) : Type :=
| Return (a : A)
| Raise (e : exn).
Arguments Return {A} a.
Arguments Raise {A} e.

(** [isinstance(e, HTTPException)] *)
Definition is_HTTPException (e : exn) : bool :=
  match e with HTTPException _ _ => true | DBAPIError _ => false end.

(** [str(e)] of a driver error; an [HTTPException] is never formatted. *)
Definition str_exn (e : exn) : string :=
  match e with HTTPException _ d => d | DBAPIError m => m end.

(** [str(n)] of a Python [int]: decimal digits, [-] before a negative. *)
Definition str_int (n : Z) : string := NilEmpty.string_of_int (Z.to_int n).

(** ** The session

    A session holds the committed tables, the tables as the open
    transaction sees them, the sequence, and what the storage layer will do
    to the coming calls: the k-th element of [script] is [Some msg] when the
    k-th round trip to the engine ([db.execute], [db.commit]) raises a
    driver error with text [msg]; past its end no call fails on its own. *)

Record Session : Type :=
  { committed : Tables;
    working : Tables;
    seq : Z;
    script : list (option string) }.

Definition M (A : Type) : Type := Session -> outcome A * Session.

Definition ret {A} (a : A) : M A := fun s => (Return a, s).

Definition raise {A} (e : exn) : M A := fun s => (Raise e, s).

Definition bind {A B} (m : M A) (k : A -> M B) : M B :=
  fun s =>
    match m s with
    | (Return a, s') => k a s'
    | (Raise e, s') => (Raise e, s')
    end.

Notation "x <- m ;; k" := (bind m (fun x => k))
  (at level 61, m at next level, right associativity).
Notation "m ;;; k" := (bind m (fun _ => k))
  (at level 61, right associativity).

(** [try: body except Exception as e: handler e] *)
Definition try_except {A} (body : M A) (handler : exn -> M A) : M A :=
  fun s =>
    match body s with
    | (Return a, s') => (Return a, s')
    | (Raise e, s') => handler e s'
    end.

Definition set_working (w : Tables) (s : Session) : Session :=
  {| committed := committed s; working := w; seq := seq s; script := script s |}.

Definition set_script (f : list (option string)) (s : Session) : Session :=
  {| committed := committed s; working := working s; seq := seq s; script := f |}.

(** One round trip to the engine. *)
Definition round_trip : M unit :=
  fun s =>
    match script s with
    | [] => (Return tt, s)
    | None :: rest => (Return tt, set_script rest s)
    | Some msg :: rest => (Raise (DBAPIError msg), set_script rest s)
    end.

Definition get_working : M Tables := fun s => (Return (working s), s).

Definition put_working (w : Tables) : M unit :=
  fun s => (Return tt, set_working w s).

(** [nextval] of the sequence of [mov_id]. *)
Definition nextval : M Z :=
  fun s =>
    (Return (seq s),
     {| committed := committed s; working := working s;
        seq := seq s + 1; script := script s |}).

(** [db.commit()]: the transaction's tables become the committed ones. *)
Definition commit : M unit :=
  round_trip ;;;
  fun s =>
    (Return tt,
     {| committed := working s; working := working s;
        seq := seq s; script := script s |}).

(** [db.rollback()]: the transaction's changes are dropped. *)
Definition rollback : M unit :=
  fun s => (Return tt, set_working (committed s) s).

(** ** Statements *)

Definition pk_violation (table : string) : exn :=
  DBAPIError ("duplicate key value violates unique constraint " ++ table ++ "_pkey").

(** [db.execute(select(tbl_produto).where(sku_id == k)).first()] *)
Definition select_produto (k : string) : M (option Produto.row) :=
  round_trip ;;;
  w <- get_working ;;
  ret (find (fun r => Produto.sku_id r =? k) (produto w)).

(** [db.execute(select(tbl_saldo_estoque).where(sku_id == k)).first()];
    [with_for_update] also locks the row until the transaction ends, which
    a single session cannot observe. *)
Definition select_saldo_estoque (k : string) (with_for_update : bool)
  : M (option Saldo.row) :=
  round_trip ;;;
  w <- get_working ;;
  ret (find (fun r => Saldo.sku_id r =? k) (saldo_estoque w)).

Definition insert_produto (r : Produto.row) : M unit :=
  round_trip ;;;
  w <- get_working ;;
  if existsb (fun r' => Produto.sku_id r' =? Produto.sku_id r) (produto w)
  then raise (pk_violation "produto")
  else put_working
         {| produto := produto w ++ [r];
            saldo_estoque := saldo_estoque w;
            movimentacao_estoque := movimentacao_estoque w |}.

Definition insert_saldo_estoque (r : Saldo.row) : M unit :=
  round_trip ;;;
  w <- get_working ;;
  if existsb (fun r' => Saldo.sku_id r' =? Saldo.sku_id r) (saldo_estoque w)
  then raise (pk_violation "saldo_estoque")
  else put_working
         {| produto := produto w;
            saldo_estoque := saldo_estoque w ++ [r];
            movimentacao_estoque := movimentacao_estoque w |}.

(** The insert gives [sku_id], [tipo_movimentacao] and [quantidade]; [mov_id]
    comes from the sequence and [data_movimentacao] from its default
    [func.now()]. *)
Definition insert_movimentacao_estoque (now : Z) (k tipo : string) (q : Z)
  : M unit :=
  round_trip ;;;
  i <- nextval ;;
  w <- get_working ;;
  put_working
    {| produto := produto w;
       saldo_estoque := saldo_estoque w;
       movimentacao_estoque :=
         movimentacao_estoque w ++
         [ {| Movimentacao.mov_id := i;
              Movimentacao.sku_id := k;
              Movimentacao.data_movimentacao := now;
              Movimentacao.tipo_movimentacao := tipo;
              Movimentacao.quantidade := q |} ] |}.

Definition set_saldo (k : string) (novo now : Z) (r : Saldo.row) : Saldo.row :=
  if Saldo.sku_id r =? k
  then {| Saldo.sku_id := Saldo.sku_id r;
          Saldo.saldo_atual := novo;
          Saldo.ultima_atualizacao := now |}
  else r.

(** [update(tbl_saldo_estoque).where(sku_id == k).values(saldo_atual=novo,
    ultima_atualizacao=func.now())] *)
Definition update_saldo_estoque (now : Z) (k : string) (novo : Z) : M unit :=
  round_trip ;;;
  w <- get_working ;;
  put_working
    {| produto := produto w;
       saldo_estoque := map (set_saldo k novo now) (saldo_estoque w);
       movimentacao_estoque := movimentacao_estoque w |}.

(** [with get_db() as db: body]: a fresh session on the database; closing
    it drops whatever was not committed. *)
Definition with_get_db {A} (faults : list (option string)) (body : M A)
  (db : Database) : outcome A * Database :=
  let (o, s) :=
    body {| committed := tables db; working := tables db;
            seq := mov_id_seq db; script := faults |} in
  (o, {| tables := committed s; mov_id_seq := seq s |}).

(** ** The endpoints *)

(** The handler both write endpoints share:
    [db.rollback()], then the [HTTPException] again, or a 500 around
    anything else. *)
Definition except_Exception {A} (e : exn) : M A :=
  rollback ;;;
  if is_HTTPException e then raise e
  else raise (HTTPException 500 ("Erro no banco de dados: " ++ str_exn e)).

Definition cadastrar_produto (faults : list (option string)) (now : Z)
  (produto : ProdutoCreate.t) (db : Database)
  : outcome CadastroResponse * Database :=
  with_get_db faults
    (found <- select_produto (ProdutoCreate.sku_id produto) ;;
     match found with
     | Some _ => raise (HTTPException 400 "SKU já cadastrado.")
     | None =>
       try_except
         (insert_produto
            {| Produto.sku_id := ProdutoCreate.sku_id produto;
               Produto.nome := ProdutoCreate.nome produto;
               Produto.nivel_minimo := ProdutoCreate.nivel_minimo produto;
               Produto.nivel_maximo := ProdutoCreate.nivel_maximo produto;
               Produto.custo_fabricacao :=
                 ProdutoCreate.custo_fabricacao produto |} ;;;
          insert_saldo_estoque
            {| Saldo.sku_id := ProdutoCreate.sku_id produto;
               Saldo.saldo_atual := 0;
               Saldo.ultima_atualizacao := now |} ;;;
          commit ;;;
          ret {| cad_message :=
                   "Produto cadastrado e saldo inicializado com sucesso.";
                 cad_sku := ProdutoCreate.sku_id produto |})
         except_Exception
     end)
    db.

Definition tipo_valido (tipo : string) : bool :=
  (tipo =? "E") || (tipo =? "S").

Definition lancar_movimentacao (faults : list (option string)) (now : Z)
  (mov : MovimentacaoCreate.t) (db : Database)
  : outcome MovimentacaoResponse * Database :=
  let k := MovimentacaoCreate.sku_id mov in
  let tipo := MovimentacaoCreate.tipo_movimentacao mov in
  let q := MovimentacaoCreate.quantidade mov in
  if negb (tipo_valido tipo)
  then (Raise (HTTPException 400
          "Tipo de movimentação inválido. Use 'E' para Entrada ou 'S' para Saída."),
        db)
  else
    with_get_db faults
      (try_except
         (saldo_atual_row <- select_saldo_estoque k true ;;
          match saldo_atual_row with
          | None => raise (HTTPException 404 "SKU não encontrado no saldo.")
          | Some row =>
            let saldo_atual := Saldo.saldo_atual row in
            novo_saldo <-
              (if tipo =? "E" then ret (saldo_atual + q)
               else if tipo =? "S" then
                 if (q >? saldo_atual)%Z
                 then raise (HTTPException 400
                        ("Estoque insuficiente. Saldo atual: "
                         ++ str_int saldo_atual))
                 else ret (saldo_atual - q)
               else ret 0) ;;
            insert_movimentacao_estoque now k tipo q ;;;
            update_saldo_estoque now k novo_saldo ;;;
            commit ;;;
            alerta_minimo <-
              (if tipo =? "S" then
                 produto_row <- select_produto k ;;
                 match produto_row with
                 | Some p => ret (novo_saldo <? Produto.nivel_minimo p)%Z
                 | None => ret false
                 end
               else ret false) ;;
            ret {| message := "Movimentação '" ++ tipo ++ "' registrada.";
                   sku := k;
                   novo_saldo := novo_saldo;
                   alerta_estoque_minimo := alerta_minimo |}
          end)
         except_Exception)
      db.

Definition consultar_saldo (faults : list (option string)) (sku_id : string)
  (db : Database) : outcome Saldo.row * Database :=
  with_get_db faults
    (saldo_row <- select_saldo_estoque sku_id false ;;
     match saldo_row with
     | None => raise (HTTPException 404 "SKU não encontrado.")
     | Some row => ret row
     end)
    db.

(** The join of [produto] and [saldo_estoque] on [sku_id]. *)
Definition join_produto_saldo (w : Tables) : list (Produto.row * Saldo.row) :=
  flat_map
    (fun p =>
       map (fun s => (p, s))
           (filter (fun s => Produto.sku_id p =? Saldo.sku_id s)
                   (saldo_estoque w)))
    (produto w).

Definition select_produto_saldo : M (list (Produto.row * Saldo.row)) :=
  round_trip ;;;
  w <- get_working ;;
  ret (join_produto_saldo w).

Definition listar_produtos (faults : list (option string)) (db : Database)
  : outcome (list ProdutoListado) * Database :=
  with_get_db faults
    (try_except
       (result <- select_produto_saldo ;;
        ret (map (fun row =>
                    {| l_SKU := Produto.sku_id (fst row);
                       l_Nome := Produto.nome (fst row);
                       l_Saldo_Atual := Saldo.saldo_atual (snd row);
                       l_Nivel_Minimo := Produto.nivel_minimo (fst row);
                       l_Custo := Produto.custo_fabricacao (fst row);
                       l_Ultima_Atualizacao :=
                         Saldo.ultima_atualizacao (snd row) |})
                 result))
       (fun e =>
          raise (HTTPException 500
                   ("Erro interno ao listar produtos: " ++ str_exn e))))
    db.

(** ** The ledger as a sequence of calls *)

(** A call carries what the environment contributes to it: the behaviour of
    the storage layer during the call and, for the two writes, the time
    [func.now()] yields. *)
Inductive op : Type :=
| Register (faults : list (option string)) (now : Z) (p : ProdutoCreate.t)
| PostMovement (faults : list (option string)) (now : Z)
    (mov : MovimentacaoCreate.t)
| GetBalance (faults : list (option string)) (sku_id : string)
| ListProducts (faults : list (option string)).

Definition run_op (o : op) (db : Database) : Database :=
  match o with
  | Register faults now p => snd (cadastrar_produto faults now p db)
  | PostMovement faults now mov => snd (lancar_movimentacao faults now mov db)
  | GetBalance faults k => snd (consultar_saldo faults k db)
  | ListProducts faults => snd (listar_produtos faults db)
  end.

Definition run (ops : list op) (db : Database) : Database :=
  fold_left (fun d o => run_op o d) ops db.

Definition is_PostMovement (o : op) : bool :=
  match o with PostMovement _ _ _ => true | _ => false end.

(** What the properties speak about. *)

Definition find_produto (k : string) (t : Tables) : option Produto.row :=
  find (fun r => Produto.sku_id r =? k) (produto t).

Definition find_saldo (k : string) (t : Tables) : option Saldo.row :=
  find (fun r => Saldo.sku_id r =? k) (saldo_estoque t).

(** The signed quantity of a movement: an entry counts positive, a
    withdrawal negative. *)
Definition signed_quantity (m : Movimentacao.row) : Z :=
  if Movimentacao.tipo_movimentacao m =? "E" then Movimentacao.quantidade m
  else if Movimentacao.tipo_movimentacao m =? "S"
       then - Movimentacao.quantidade m
       else 0.

Fixpoint signed_sum (k : string) (movs : list Movimentacao.row) : Z :=
  match movs with
  | [] => 0
  | m :: rest =>
    (if Movimentacao.sku_id m =? k then signed_quantity m else 0)
    + signed_sum k rest
  end.

(** The first round trip of a call fails with this text, if it fails. *)
Definition first_fault (faults : list (option string)) : option string :=
  match faults with
  | Some msg :: _ => Some msg
  | _ => None
  end.


(** The tables after a posting of [q] units on [k] that left [novo] in
    stock, the movement numbered [i]. *)
Definition posted (now : Z) (k tipo : string) (q novo i : Z) (t : Tables)
  : Tables :=
  {| produto := produto t;
     saldo_estoque := map (set_saldo k novo now) (saldo_estoque t);
     movimentacao_estoque :=
       movimentacao_estoque t ++
       [ {| Movimentacao.mov_id := i;
            Movimentacao.sku_id := k;
            Movimentacao.data_movimentacao := now;
            Movimentacao.tipo_movimentacao := tipo;
            Movimentacao.quantidade := q |} ] |}.

(** The tables after the registration of [p]. *)
Definition registered (now : Z) (p : ProdutoCreate.t) (t : Tables) : Tables :=
  {| produto :=
       produto t ++
       [ {| Produto.sku_id := ProdutoCreate.sku_id p;
            Produto.nome := ProdutoCreate.nome p;
            Produto.nivel_minimo := ProdutoCreate.nivel_minimo p;
            Produto.nivel_maximo := ProdutoCreate.nivel_maximo p;
            Produto.custo_fabricacao := ProdutoCreate.custo_fabricacao p |} ];
     saldo_estoque :=
       saldo_estoque t ++
       [ {| Saldo.sku_id := ProdutoCreate.sku_id p;
            Saldo.saldo_atual := 0;
            Saldo.ultima_atualizacao := now |} ];
     movimentacao_estoque := movimentacao_estoque t |}.

Definition storage_error (msg : string) : exn :=
  HTTPException 500 ("Erro no banco de dados: " ++ msg).

Definition tipo_invalido : exn :=
  HTTPException 400
    "Tipo de movimentação inválido. Use 'E' para Entrada ou 'S' para Saída.".

Definition estoque_insuficiente (saldo_atual : Z) : exn :=
  HTTPException 400
    ("Estoque insuficiente. Saldo atual: " ++ str_int saldo_atual).

(** Sample data: the product of the scenarios. *)
Definition produto_A1 : ProdutoCreate.t :=
  {| ProdutoCreate.sku_id := "A1";
     ProdutoCreate.nome := "Parafuso";
     ProdutoCreate.nivel_minimo := 5;
     ProdutoCreate.nivel_maximo := 100;
     ProdutoCreate.custo_fabricacao := 2.0%float |}.

Definition movimentacao (k tipo : string) (q : Z) : MovimentacaoCreate.t :=
  {| MovimentacaoCreate.sku_id := k;
     MovimentacaoCreate.tipo_movimentacao := tipo;
     MovimentacaoCreate.quantidade := q |}.

(** [A1] registered at time 100, then 10 units in at 101, 7 out at 102. *)
Definition db_A1_0 : Database :=
  Eval vm_compute in snd (cadastrar_produto [] 100 produto_A1 empty_database).

Definition db_A1_10 : Database :=
  Eval vm_compute in
    snd (lancar_movimentacao [] 101 (movimentacao "A1" "E" 10) db_A1_0).

Definition db_A1_3 : Database :=
  Eval vm_compute in
    snd (lancar_movimentacao [] 102 (movimentacao "A1" "S" 7) db_A1_10).

(** ** Vocabulary of the properties *)

Definition novo_saldo_de (tipo : string) (saldo_atual q : Z) : Z :=
  if tipo =? "E" then saldo_atual + q else saldo_atual - q.

Definition alerta_de (tipo : string) (novo : Z) (p : option Produto.row)
  : bool :=
  if tipo =? "S" then
    match p with
    | Some r => (novo <? Produto.nivel_minimo r)%Z
    | None => false
    end
  else false.

Definition cadastro_ok (p : ProdutoCreate.t) : CadastroResponse :=
  {| cad_message := "Produto cadastrado e saldo inicializado com sucesso.";
     cad_sku := ProdutoCreate.sku_id p |}.

Definition well_formed (o : op) : Prop :=
  match o with
  | PostMovement _ _ mov =>
    (MovimentacaoCreate.tipo_movimentacao mov = "E" \/
     MovimentacaoCreate.tipo_movimentacao mov = "S") /\
    MovimentacaoCreate.quantidade mov > 0
  | _ => True
  end.

Record ledger_consistent (t : Tables) : Prop :=
  { balance_is_sum :
      forall k row, find_saldo k t = Some row ->
        Saldo.saldo_atual row = signed_sum k (movimentacao_estoque t) /\
        0 <= Saldo.saldo_atual row;
    no_balance_no_movement :
      forall k, find_saldo k t = None ->
        signed_sum k (movimentacao_estoque t) = 0;
    product_has_balance :
      forall k p, find_produto k t = Some p ->
        exists row, find_saldo k t = Some row;
    balance_unique : NoDup (map Saldo.sku_id (saldo_estoque t)) }.

(** ** States that differ only in maximum thresholds *)

Definition sem_maximo (r : Produto.row) : Produto.row :=
  {| Produto.sku_id := Produto.sku_id r;
     Produto.nome := Produto.nome r;
     Produto.nivel_minimo := Produto.nivel_minimo r;
     Produto.nivel_maximo := 0;
     Produto.custo_fabricacao := Produto.custo_fabricacao r |}.

(** The tables with every maximum threshold blanked. *)
Definition mask (t : Tables) : Tables :=
  {| produto := map sem_maximo (produto t);
     saldo_estoque := saldo_estoque t;
     movimentacao_estoque := movimentacao_estoque t |}.






(** ** Two requests at once

    [lancar_movimentacao] run by two request handlers against the same
    engine, one statement at a time, in any order.  Each handler has its own
    session; what a transaction wrote is seen by the other only after
    [db.commit()].  The row [SELECT ... FOR UPDATE] returns is locked by its
    transaction until that ends, by commit or rollback, and a second
    [SELECT ... FOR UPDATE] of the same row waits for it.  The engine answers
    every statement (no driver errors here). *)

(** Where a handler stands in [lancar_movimentacao]. *)
Inductive pc : Type :=
| AtStart
| AtSelect
| AtCheck (saldo_atual : Z)
| AtInsert (novo_saldo : Z)
| AtUpdate (novo_saldo : Z) (mov_id : Z)
| AtCommit (novo_saldo : Z) (mov_id : Z)
| AtAlert (novo_saldo : Z)
| Done (o : outcome MovimentacaoResponse).

(** The handler holds the lock on the balance row of its SKU. *)
Definition holds_lock (at_ : pc) : bool :=
  match at_ with
  | AtCheck _ | AtInsert _ | AtUpdate _ _ | AtCommit _ _ => true
  | _ => false
  end.

(** One statement of the handler of [mov], on the committed database [db];
    [others_hold] tells whether another transaction holds the lock on the
    balance row of the SKU.  [None]: the handler waits, or has finished. *)
Definition handler_step (now : Z) (mov : MovimentacaoCreate.t)
  (others_hold : bool) (db : Database) (at_ : pc) : option (Database * pc) :=
  let k := MovimentacaoCreate.sku_id mov in
  let tipo := MovimentacaoCreate.tipo_movimentacao mov in
  let q := MovimentacaoCreate.quantidade mov in
  match at_ with
  | AtStart =>
    if negb (tipo_valido tipo)
    then Some (db, Done (Raise tipo_invalido))
    else Some (db, AtSelect)
  | AtSelect =>
    match find_saldo k (tables db) with
    | None =>
      Some (db, Done (Raise (HTTPException 404 "SKU não encontrado no saldo.")))
    | Some row =>
      if others_hold then None
      else Some (db, AtCheck (Saldo.saldo_atual row))
    end
  | AtCheck saldo_atual =>
    if tipo =? "E" then Some (db, AtInsert (saldo_atual + q))
    else if tipo =? "S" then
      if (q >? saldo_atual)%Z
      then Some (db, Done (Raise (estoque_insuficiente saldo_atual)))
      else Some (db, AtInsert (saldo_atual - q))
    else Some (db, AtInsert 0)
  | AtInsert novo =>
    Some ({| tables := tables db; mov_id_seq := mov_id_seq db + 1 |},
          AtUpdate novo (mov_id_seq db))
  | AtUpdate novo i => Some (db, AtCommit novo i)
  | AtCommit novo i =>
    Some ({| tables := posted now k tipo q novo i (tables db);
             mov_id_seq := mov_id_seq db |},
          AtAlert novo)
  | AtAlert novo =>
    Some (db,
          Done (Return
                  {| message := "Movimentação '" ++ tipo ++ "' registrada.";
                     sku := k;
                     novo_saldo := novo;
                     alerta_estoque_minimo :=
                       alerta_de tipo novo (find_produto k (tables db)) |}))
  | Done _ => None
  end.


(** Two handlers on one database. *)
Record config : Type :=
  { shared : Database;
    left_at : pc;
    right_at : pc }.

Definition same_row (m1 m2 : MovimentacaoCreate.t) : bool :=
  MovimentacaoCreate.sku_id m1 =? MovimentacaoCreate.sku_id m2.

Inductive step (now1 now2 : Z) (mov1 mov2 : MovimentacaoCreate.t)
  : config -> config -> Prop :=
| step_left (c : config) (db' : Database) (at' : pc) :
    handler_step now1 mov1 (same_row mov1 mov2 && holds_lock (right_at c))
      (shared c) (left_at c) = Some (db', at') ->
    step now1 now2 mov1 mov2 c
      {| shared := db'; left_at := at'; right_at := right_at c |}
| step_right (c : config) (db' : Database) (at' : pc) :
    handler_step now2 mov2 (same_row mov1 mov2 && holds_lock (left_at c))
      (shared c) (right_at c) = Some (db', at') ->
    step now1 now2 mov1 mov2 c
      {| shared := db'; left_at := left_at c; right_at := at' |}.


(** Both handlers have answered. *)
Definition finished (c : config) : Prop :=
  exists o1 o2, left_at c = Done o1 /\ right_at c = Done o2.

(** The statements a handler still has to run, at most. *)
Definition remaining (at_ : pc) : nat :=
  match at_ with
  | AtStart => 7
  | AtSelect => 6
  | AtCheck _ => 5
  | AtInsert _ => 4
  | AtUpdate _ _ => 3
  | AtCommit _ _ => 2
  | AtAlert _ => 1
  | Done _ => 0
  end.


(** Both handlers at the top of [lancar_movimentacao]. *)
Definition start (db : Database) : config :=
  {| shared := db; left_at := AtStart; right_at := AtStart |}.










(** A day of calls on [A1]; the fifth loses its connection at the update. *)
Definition dia_A1 : list op :=
  [ Register [] 100 produto_A1;
    PostMovement [] 101 (movimentacao "A1" "E" 10);
    GetBalance [] "A1";
    PostMovement [] 102 (movimentacao "A1" "S" 7);
    PostMovement [None; None; Some "connection reset"] 103
      (movimentacao "A1" "S" 1);
    PostMovement [] 104 (movimentacao "A1" "S" 50);
    ListProducts [] ].



(** ** Tactics *)

(** Case analysis on what the storage layer does to the next round trip. *)
Ltac next_round_trip :=
  match goal with
  | |- context [match ?f with [] => _ | _ :: _ => _ end] =>
    is_var f; destruct f as [| [?msg |] ?]; cbn
  end.

Ltac unfold_session :=
  unfold with_get_db, try_except, except_Exception,
    select_produto, select_saldo_estoque, select_produto_saldo,
    insert_produto, insert_saldo_estoque, insert_movimentacao_estoque,
    update_saldo_estoque, commit, rollback, nextval, get_working,
    put_working, round_trip, bind, ret, raise, set_working, set_script.

Ltac run_session := unfold_session; cbn; repeat next_round_trip.

(** The call left the tables as they were and raised. *)
Ltac unchanged := left; split; [reflexivity | eexists; reflexivity].


(** ** Further vocabulary: errors, identifiers, catalogue *)

From Stdlib Require Import Sorted.





(** The dictionary [listar_produtos] builds from a row of the join. *)
Definition listado (row : Produto.row * Saldo.row) : ProdutoListado :=
  {| l_SKU := Produto.sku_id (fst row);
     l_Nome := Produto.nome (fst row);
     l_Saldo_Atual := Saldo.saldo_atual (snd row);
     l_Nivel_Minimo := Produto.nivel_minimo (fst row);
     l_Custo := Produto.custo_fabricacao (fst row);
     l_Ultima_Atualizacao := Saldo.ultima_atualizacao (snd row) |}.

(** The tables [t'] hold what [t] held and more: products and movements
    were only appended, and the balance rows are those of the same SKUs,
    in the same order, followed by new ones. *)
Definition grows (t t' : Tables) : Prop :=
  (exists l, produto t' = (produto t ++ l)%list) /\
  (exists l, movimentacao_estoque t' = (movimentacao_estoque t ++ l)%list) /\
  (exists l, map Saldo.sku_id (saldo_estoque t') =
             (map Saldo.sku_id (saldo_estoque t) ++ l)%list).

(** Sample data: a second product, and a database with both in stock. *)
Definition produto_B7 : ProdutoCreate.t :=
  {| ProdutoCreate.sku_id := "B7";
     ProdutoCreate.nome := "Porca";
     ProdutoCreate.nivel_minimo := 2;
     ProdutoCreate.nivel_maximo := 50;
     ProdutoCreate.custo_fabricacao := 0.5%float |}.

Definition db_A1_B7 : Database :=
  Eval vm_compute in
    run [ Register [] 100 produto_A1;
          Register [] 110 produto_B7;
          PostMovement [] 120 (movimentacao "A1" "E" 10);
          PostMovement [] 130 (movimentacao "B7" "E" 4) ]
        empty_database.

(** ** Runs of two handlers, counted *)

Inductive steps_n (now1 now2 : Z) (mov1 mov2 : MovimentacaoCreate.t)
  : nat -> config -> config -> Prop :=
| steps_n_O (c : config) : steps_n now1 now2 mov1 mov2 0 c c
| steps_n_S (n : nat) (c c' c'' : config) :
    steps_n now1 now2 mov1 mov2 n c c' ->
    step now1 now2 mov1 mov2 c' c'' ->
    steps_n now1 now2 mov1 mov2 (S n) c c''.



(** ** The forms of the dashboard ([frontend/dashboard_sige.py])

    The tabs "Lançar Movimentação" and "Cadastrar Novo Produto" of the
    dashboard and their [api_lancar_movimentacao] and
    [api_cadastrar_produto], which post to the endpoints over HTTP.  What
    Streamlit puts on the page is the list of the [st.success],
    [st.warning] and [st.error] calls, in order. *)

Inductive widget : Type :=
| st_success (text : string)
| st_warning (text : string)
| st_error (text : string).

(** The exceptions the function does not catch. *)
Inductive py_exn : Type :=
| KeyError (key : string)
| JSONDecodeError.

(** What a run of the script shows, and the exception that ended it, if
    one did. *)
Record page : Type :=
  { shown : list widget;
    raised : option py_exn }.

(** The body of a response: the dictionary the endpoint returned, the
    [{"detail": ...}] of an [HTTPException], or the plain text the server
    answers when any other exception leaves the endpoint. *)
Inductive body : Type :=
| JSON_movimentacao (r : MovimentacaoResponse)
| JSON_cadastro (r : CadastroResponse)
| JSON_detail (detail : string)
| PlainText (text : string).

Record response : Type :=
  { status_code : Z;
    content : body }.

(** The route [POST /movimentacoes]: 201 with the returned dictionary
    ([status_code=status.HTTP_201_CREATED]), the status and detail of an
    [HTTPException], 500 in plain text for anything else. *)
Definition post_movimentacoes (faults : list (option string)) (now : Z)
  (data : MovimentacaoCreate.t) (db : Database) : response * Database :=
  match lancar_movimentacao faults now data db with
  | (Return r, db') =>
    ({| status_code := 201; content := JSON_movimentacao r |}, db')
  | (Raise (HTTPException c d), db') =>
    ({| status_code := c; content := JSON_detail d |}, db')
  | (Raise (DBAPIError _), db') =>
    ({| status_code := 500; content := PlainText "Internal Server Error" |},
     db')
  end.

(** The route [POST /produtos], likewise. *)
Definition post_produtos (faults : list (option string)) (now : Z)
  (data : ProdutoCreate.t) (db : Database) : response * Database :=
  match cadastrar_produto faults now data db with
  | (Return r, db') =>
    ({| status_code := 201; content := JSON_cadastro r |}, db')
  | (Raise (HTTPException c d), db') =>
    ({| status_code := c; content := JSON_detail d |}, db')
  | (Raise (DBAPIError _), db') =>
    ({| status_code := 500; content := PlainText "Internal Server Error" |},
     db')
  end.

(** [tipo_map[tipo]]: [None] is the [KeyError]. *)
Definition tipo_map (tipo : string) : option string :=
  if tipo =? "Entrada" then Some "E"
  else if tipo =? "Saída" then Some "S"
  else None.

(** How [requests.post] ends: the server was not reached; it was reached
    and handled the request but its answer did not arrive; or the answer
    arrived.  The first two raise [ConnectionError]. *)
Inductive link : Type := Unreachable | ReplyLost | Delivered.

(** The values of the JSON objects the route answers. *)
Inductive py_value : Type :=
| py_int (n : Z)
| py_str (s : string)
| py_bool (b : bool)
| py_None.

(** [response.json()], as the function [.get] of the dictionary; [None]
    when the body is no JSON and [.json()] raises. *)
Definition json (b : body) : option (string -> py_value) :=
  match b with
  | JSON_movimentacao r =>
    Some (fun key =>
            if key =? "message" then py_str (message r)
            else if key =? "sku" then py_str (sku r)
            else if key =? "novo_saldo" then py_int (novo_saldo r)
            else if key =? "alerta_estoque_minimo"
                 then py_bool (alerta_estoque_minimo r)
                 else py_None)
  | JSON_cadastro r =>
    Some (fun key =>
            if key =? "message" then py_str (cad_message r)
            else if key =? "sku" then py_str (cad_sku r)
            else py_None)
  | JSON_detail d =>
    Some (fun key => if key =? "detail" then py_str d else py_None)
  | PlainText _ => None
  end.

(** A value inside an f-string. *)
Definition format (v : py_value) : string :=
  match v with
  | py_int n => str_int n
  | py_str s => s
  | py_bool true => "True"
  | py_bool false => "False"
  | py_None => "None"
  end.

(** A value as the condition of an [if]. *)
Definition truthy (v : py_value) : bool :=
  match v with
  | py_int n => negb (n =? 0)%Z
  | py_str s => negb (s =? "")
  | py_bool b => b
  | py_None => false
  end.

Definition erro_de_conexao (API_URL : string) : widget :=
  st_error ("Erro de conexão: Não foi possível conectar à API em " ++ API_URL).

Definition alerta_abaixo_do_minimo : widget :=
  st_warning "ALERTA: O estoque deste item está abaixo do nível mínimo!".

Definition api_lancar_movimentacao (API_URL : string) (via : link)
  (faults : list (option string)) (now : Z) (sku tipo : string) (qtd : Z)
  (db : Database) : page * Database :=
  match tipo_map tipo with
  | None => ({| shown := []; raised := Some (KeyError tipo) |}, db)
  | Some t =>
    let data :=
      {| MovimentacaoCreate.sku_id := sku;
         MovimentacaoCreate.tipo_movimentacao := t;
         MovimentacaoCreate.quantidade := qtd |} in
    match via with
    | Unreachable =>
      ({| shown := [erro_de_conexao API_URL]; raised := None |}, db)
    | ReplyLost =>
      ({| shown := [erro_de_conexao API_URL]; raised := None |},
       snd (post_movimentacoes faults now data db))
    | Delivered =>
      let (response, db') := post_movimentacoes faults now data db in
      (match json (content response) with
       | None => {| shown := []; raised := Some JSONDecodeError |}
       | Some get =>
         if (status_code response =? 201)%Z then
           {| shown :=
                st_success ("Movimentação registrada! Novo Saldo: "
                            ++ format (get "novo_saldo"))
                :: (if truthy (get "alerta_estoque_minimo")
                    then [alerta_abaixo_do_minimo]
                    else []);
              raised := None |}
         else
           {| shown :=
                [st_error ("Erro na movimentação: " ++ format (get "detail"))];
              raised := None |}
       end,
       db')
    end
  end.

Definition api_cadastrar_produto (API_URL : string) (via : link)
  (faults : list (option string)) (now : Z) (sku nome : string)
  (min max : Z) (custo : float) (db : Database) : page * Database :=
  let data :=
    {| ProdutoCreate.sku_id := sku;
       ProdutoCreate.nome := nome;
       ProdutoCreate.nivel_minimo := min;
       ProdutoCreate.nivel_maximo := max;
       ProdutoCreate.custo_fabricacao := custo |} in
  match via with
  | Unreachable =>
    ({| shown := [erro_de_conexao API_URL]; raised := None |}, db)
  | ReplyLost =>
    ({| shown := [erro_de_conexao API_URL]; raised := None |},
     snd (post_produtos faults now data db))
  | Delivered =>
    let (response, db') := post_produtos faults now data db in
    (if (status_code response =? 201)%Z then
       {| shown := [st_success ("Produto " ++ sku ++ " cadastrado com sucesso!")];
          raised := None |}
     else
       match json (content response) with
       | None => {| shown := []; raised := Some JSONDecodeError |}
       | Some get =>
         {| shown := [st_error ("Erro ao cadastrar: " ++ format (get "detail"))];
            raised := None |}
       end,
     db')
  end.

(** The form: [if submitted_mov:] ... *)
Definition mov_form_submit (API_URL : string) (via : link)
  (faults : list (option string)) (now : Z) (mov_sku mov_tipo : string)
  (mov_qtd : Z) (db : Database) : page * Database :=
  if (mov_sku =? "") || (mov_qtd <=? 0)%Z
  then ({| shown := [st_warning "Preencha todos os campos corretamente."];
           raised := None |}, db)
  else api_lancar_movimentacao API_URL via faults now mov_sku mov_tipo mov_qtd
         db.

(** The form: [if submitted_prod:] ... *)
Definition prod_form_submit (API_URL : string) (via : link)
  (faults : list (option string)) (now : Z) (prod_sku prod_nome : string)
  (prod_min prod_max : Z) (prod_custo : float) (db : Database)
  : page * Database :=
  if (prod_sku =? "") || (prod_nome =? "")
  then ({| shown := [st_warning "SKU e Nome são obrigatórios."];
           raised := None |}, db)
  else api_cadastrar_produto API_URL via faults now prod_sku prod_nome
         prod_min prod_max prod_custo db.

(** A day at the dashboard and the API: submissions of the two forms, and
    calls of the endpoints. *)
Inductive event : Type :=
| MovForm (via : link) (faults : list (option string)) (now : Z)
    (mov_sku mov_tipo : string) (mov_qtd : Z)
| ProdForm (via : link) (faults : list (option string)) (now : Z)
    (prod_sku prod_nome : string) (prod_min prod_max : Z) (prod_custo : float)
| Call (o : op).

Definition run_event (API_URL : string) (e : event) (db : Database)
  : Database :=
  match e with
  | MovForm via faults now mov_sku mov_tipo mov_qtd =>
    snd (mov_form_submit API_URL via faults now mov_sku mov_tipo mov_qtd db)
  | ProdForm via faults now prod_sku prod_nome prod_min prod_max prod_custo =>
    snd (prod_form_submit API_URL via faults now prod_sku prod_nome prod_min
           prod_max prod_custo db)
  | Call o => run_op o db
  end.

Definition run_events (API_URL : string) (es : list event) (db : Database)
  : Database :=
  fold_left (fun d e => run_event API_URL e d) es db.

(** Every posting of the day went through the form. *)
Definition through_the_form (e : event) : bool :=
  match e with
  | MovForm _ _ _ _ _ _ => true
  | ProdForm _ _ _ _ _ _ _ _ => true
  | Call o => negb (is_PostMovement o)
  end.

(** Every registration of the day went through the form. *)
Definition registered_in_the_form (e : event) : bool :=
  match e with
  | Call (Register _ _ _) => false
  | _ => true
  end.

(** Every product has a SKU and a name. *)
Definition named (t : Tables) : Prop :=
  Forall (fun p => Produto.sku_id p <> "" /\ Produto.nome p <> "") (produto t).

(** Sample runs. *)



(** A day at the dashboard: a product registered, 10 units in, 7 out, and
    three submissions that record nothing. *)
Definition dia_no_painel : list event :=
  [ ProdForm Delivered [] 100 "A1" "Parafuso" 5 100 2.0%float;
    MovForm Delivered [] 101 "A1" "Entrada" 10;
    MovForm ReplyLost [] 102 "A1" "Saída" 7;
    MovForm Delivered [] 103 "A1" "Saída" 50;
    MovForm Delivered [] 104 "" "Entrada" 1;
    MovForm Delivered [] 105 "A1" "Entrada" (-5);
    Call (GetBalance [] "A1") ].

(** The time of the latest movement of a SKU in the log, if it has one. *)
Definition last_movement (k : string) (movs : list Movimentacao.row)
  : option Z :=
  option_map Movimentacao.data_movimentacao
    (find (fun m => Movimentacao.sku_id m =? k) (rev movs)).

(** The balance rows carry the time of the latest movement of their SKU,
    and only SKUs with a balance row have movements. *)
Definition timestamps_agree (t : Tables) : Prop :=
  forall k,
    match last_movement k (movimentacao_estoque t) with
    | None => True
    | Some time =>
      exists row, find_saldo k t = Some row /\
                  Saldo.ultima_atualizacao row = time
    end.

(** The list a listing returned, empty when it raised. *)
Definition fst_items (r : outcome (list ProdutoListado) * Database)
  : list ProdutoListado :=
  match fst r with Return items => items | Raise _ => [] end.

(** * Properties *)

#[local] Arguments String.append : simpl never.
#[local] Arguments str_int : simpl never.

Lemma tipo_valido_cases (tipo : string) :
  tipo_valido tipo = true -> tipo = "E" \/ tipo = "S".
Proof.
  unfold tipo_valido. intros H. apply orb_true_iff in H.
  destruct H as [H | H]; apply String.eqb_eq in H; auto.
Qed.

(** C3: a withdrawal ('S') of more than the balance of a registered SKU
    raises the 400 "Estoque insuficiente", whose detail carries the current
    balance, and the database is exactly what it was: no movement is
    appended, and the balance row keeps its quantity and its timestamp.
    The only other outcome is the 500 the handler raises when the engine
    fails the select itself; the database is unchanged then too. *)
Theorem insufficient_stock_rejected
  (faults : list (option string)) (now : Z) (k : string) (q : Z)
  (db : Database) (row : Saldo.row) :
  find_saldo k (tables db) = Some row ->
  q > Saldo.saldo_atual row ->
  lancar_movimentacao faults now (movimentacao k "S" q) db =
  (Raise match first_fault faults with
         | None => estoque_insuficiente (Saldo.saldo_atual row)
         | Some msg => storage_error msg
         end,
   db).
Proof.
  intros Hrow Hq. unfold find_saldo in Hrow.
  unfold lancar_movimentacao. cbn.
  apply Z.gtb_gt in Hq.
  destruct db as [t i].
  run_session; cbn in *; rewrite ?Hrow; cbn; rewrite ?Hq; reflexivity.
Qed.

Lemma insufficient_stock_rejected_witness :
  lancar_movimentacao [] 103 (movimentacao "A1" "S" 50) db_A1_3 =
  (Raise (HTTPException 400 "Estoque insuficiente. Saldo atual: 3"), db_A1_3).
Proof.
  apply (insufficient_stock_rejected [] 103 "A1" 50 db_A1_3
           {| Saldo.sku_id := "A1"; Saldo.saldo_atual := 3;
              Saldo.ultima_atualizacao := 102 |});
    [ reflexivity | cbn; lia ].
Defined.

(** A quantity that is not positive is not refused: an entry of -10 on
    [A1], 3 in stock, is recorded and leaves -7. *)
Lemma nonpositive_quantity_accepted :
  ~ 0 < MovimentacaoCreate.quantidade (movimentacao "A1" "E" (-10)) /\
  exists db',
    lancar_movimentacao [] 103 (movimentacao "A1" "E" (-10)) db_A1_3 =
    (Return {| message := "Movimentação 'E' registrada.";
               sku := "A1";
               novo_saldo := -7;
               alerta_estoque_minimo := false |}, db') /\
    find_saldo "A1" (tables db') =
    Some {| Saldo.sku_id := "A1"; Saldo.saldo_atual := -7;
            Saldo.ultima_atualizacao := 103 |} /\
    tables db' <> tables db_A1_3.
Proof.
  split; [cbn; lia |].
  eexists. split; [vm_compute; reflexivity |].
  split; [reflexivity | discriminate].
Qed.

(** C4, amended: a call whose direction is neither 'E' nor 'S' raises the
    400 "Tipo de movimentação inválido" whatever its quantity and whatever
    the storage layer would do, that is before any statement is sent, and
    the database is unchanged. *)
Theorem invalid_direction_rejected
  (faults : list (option string)) (now : Z) (mov : MovimentacaoCreate.t)
  (db : Database) :
  tipo_valido (MovimentacaoCreate.tipo_movimentacao mov) = false ->
  lancar_movimentacao faults now mov db = (Raise tipo_invalido, db).
Proof.
  intros H. unfold lancar_movimentacao. rewrite H. reflexivity.
Qed.

Lemma invalid_direction_rejected_witness :
  lancar_movimentacao [] 103 (movimentacao "A1" "X" 0) db_A1_3 =
  (Raise tipo_invalido, db_A1_3).
Proof.
  apply (invalid_direction_rejected [] 103 (movimentacao "A1" "X" 0) db_A1_3).
  reflexivity.
Defined.

(** C7: registering a SKU that has a product row raises the 400 "SKU já
    cadastrado." and leaves the database, hence the product and its
    balance, as it was.  The only other outcome is the driver error of a
    select the engine fails, raised as it is since the select stands outside
    the [try]; the database is unchanged then too. *)
Theorem duplicate_sku_rejected
  (faults : list (option string)) (now : Z) (p : ProdutoCreate.t)
  (db : Database) (old : Produto.row) :
  find_produto (ProdutoCreate.sku_id p) (tables db) = Some old ->
  cadastrar_produto faults now p db =
  (Raise match first_fault faults with
         | None => HTTPException 400 "SKU já cadastrado."
         | Some msg => DBAPIError msg
         end,
   db).
Proof.
  intros Hold. unfold find_produto in Hold.
  unfold cadastrar_produto. destruct db as [t i].
  run_session; cbn in *; rewrite ?Hold; reflexivity.
Qed.

Lemma duplicate_sku_rejected_witness :
  cadastrar_produto [] 104 produto_A1 db_A1_3 =
  (Raise (HTTPException 400 "SKU já cadastrado."), db_A1_3).
Proof.
  apply (duplicate_sku_rejected [] 104 produto_A1 db_A1_3
           {| Produto.sku_id := "A1"; Produto.nome := "Parafuso";
              Produto.nivel_minimo := 5; Produto.nivel_maximo := 100;
              Produto.custo_fabricacao := 2.0%float |}).
  reflexivity.
Defined.




(** ** What a call does to the tables *)

Lemma lancar_movimentacao_effect
  (faults : list (option string)) (now : Z) (mov : MovimentacaoCreate.t)
  (db : Database) :
  let k := MovimentacaoCreate.sku_id mov in
  let tipo := MovimentacaoCreate.tipo_movimentacao mov in
  let q := MovimentacaoCreate.quantidade mov in
  let r := lancar_movimentacao faults now mov db in
  (tables (snd r) = tables db /\ exists e, fst r = Raise e) \/
  (exists row,
      find_saldo k (tables db) = Some row /\
      (tipo = "E" \/ tipo = "S" /\ q <= Saldo.saldo_atual row) /\
      let novo := novo_saldo_de tipo (Saldo.saldo_atual row) q in
      snd r =
      {| tables := posted now k tipo q novo (mov_id_seq db) (tables db);
         mov_id_seq := mov_id_seq db + 1 |} /\
      (fst r =
       Return {| message := "Movimentação '" ++ tipo ++ "' registrada.";
                 sku := k;
                 novo_saldo := novo;
                 alerta_estoque_minimo :=
                   alerta_de tipo novo (find_produto k (tables db)) |}
       \/ tipo = "S" /\ exists msg, fst r = Raise (storage_error msg))).
Proof.
  destruct mov as [k tipo q]. destruct db as [t i]. cbn.
  unfold lancar_movimentacao. cbn.
  destruct (tipo_valido tipo) eqn:Htipo; cbn; [| unchanged].
  unfold find_saldo, find_produto, novo_saldo_de, alerta_de, posted.
  apply tipo_valido_cases in Htipo.
  destruct Htipo as [-> | ->]; cbn.
  - run_session; try unchanged;
      (destruct (find _ (saldo_estoque t)) as [row |] eqn:Hrow; cbn;
       [| unchanged]);
      repeat next_round_trip; try unchanged;
      right; exists row; (split; [reflexivity |]); (split; [now left |]);
      (split; [reflexivity |]); left; reflexivity.
  - run_session; try unchanged;
      (destruct (find _ (saldo_estoque t)) as [row |] eqn:Hrow; cbn;
       [| unchanged]);
      (destruct (q >? Saldo.saldo_atual row) eqn:Hq; cbn; [unchanged |]);
      rewrite Z.gtb_ltb in Hq; apply Z.ltb_ge in Hq;
      repeat next_round_trip; try unchanged;
      try (destruct (find _ (produto t)); cbn);
      right; exists row; (split; [reflexivity |]);
      (split; [right; split; [reflexivity | exact Hq] |]);
      (split; [reflexivity |]);
      try (left; reflexivity);
      (right; split; [reflexivity | eexists; reflexivity]).
Qed.

Lemma find_existsb_None {A} (f : A -> bool) (l : list A) :
  find f l = None -> existsb f l = false.
Proof.
  induction l as [| a l IH]; cbn; [reflexivity |].
  destruct (f a); [discriminate | exact IH].
Qed.

Lemma existsb_find_None {A} (f : A -> bool) (l : list A) :
  existsb f l = false -> find f l = None.
Proof.
  induction l as [| a l IH]; cbn; [reflexivity |].
  destruct (f a); [discriminate | exact IH].
Qed.

Lemma find_app_None {A} (f : A -> bool) (l : list A) (a : A) :
  find f l = None -> find f (l ++ [a]) = if f a then Some a else None.
Proof.
  induction l as [| b l IH]; cbn; [reflexivity |].
  destruct (f b); [discriminate | exact IH].
Qed.

Lemma find_app_Some {A} (f : A -> bool) (l l' : list A) (a : A) :
  find f l = Some a -> find f (l ++ l') = Some a.
Proof.
  induction l as [| b l IH]; cbn; [discriminate |].
  destruct (f b); [trivial | exact IH].
Qed.

Lemma set_saldo_sku_id (k : string) (novo now : Z) (r : Saldo.row) :
  Saldo.sku_id (set_saldo k novo now r) = Saldo.sku_id r.
Proof. unfold set_saldo. destruct (Saldo.sku_id r =? k); reflexivity. Qed.

Lemma find_set_saldo (k : string) (novo now : Z) (l : list Saldo.row)
  (row : Saldo.row) :
  find (fun r => Saldo.sku_id r =? k) l = Some row ->
  find (fun r => Saldo.sku_id r =? k) (map (set_saldo k novo now) l) =
  Some {| Saldo.sku_id := Saldo.sku_id row;
          Saldo.saldo_atual := novo;
          Saldo.ultima_atualizacao := now |}.
Proof.
  induction l as [| r l IH]; cbn; [discriminate |].
  rewrite set_saldo_sku_id.
  destruct (Saldo.sku_id r =? k) eqn:E.
  - intros [= ->]. unfold set_saldo. rewrite E. reflexivity.
  - exact IH.
Qed.

Lemma find_set_saldo_other (k k' : string) (novo now : Z)
  (l : list Saldo.row) :
  k' <> k ->
  find (fun r => Saldo.sku_id r =? k') (map (set_saldo k novo now) l) =
  find (fun r => Saldo.sku_id r =? k') l.
Proof.
  intros Hk. induction l as [| r l IH]; cbn; [reflexivity |].
  rewrite IH, set_saldo_sku_id.
  destruct (Saldo.sku_id r =? k') eqn:E'; [| reflexivity].
  apply String.eqb_eq in E'. unfold set_saldo.
  destruct (Saldo.sku_id r =? k) eqn:E; [| reflexivity].
  apply String.eqb_eq in E. congruence.
Qed.

(** C5: when a posting with a positive quantity on a registered SKU
    returns, its direction is 'E' or 'S'; the balance it returns is the one
    it stored, the current balance plus the quantity for an entry and minus
    the quantity for a withdrawal; the alert is false for an entry, and for
    a withdrawal it is true exactly when the new balance is strictly below
    the minimum level of the product. *)
Theorem posting_result
  (faults : list (option string)) (now : Z) (mov : MovimentacaoCreate.t)
  (db db' : Database) (p : Produto.row) (row : Saldo.row)
  (resp : MovimentacaoResponse) :
  let k := MovimentacaoCreate.sku_id mov in
  let tipo := MovimentacaoCreate.tipo_movimentacao mov in
  let q := MovimentacaoCreate.quantidade mov in
  find_produto k (tables db) = Some p ->
  find_saldo k (tables db) = Some row ->
  q > 0 ->
  lancar_movimentacao faults now mov db = (Return resp, db') ->
  (tipo = "E" \/ tipo = "S") /\
  (tipo = "E" ->
   novo_saldo resp = Saldo.saldo_atual row + q /\
   alerta_estoque_minimo resp = false) /\
  (tipo = "S" ->
   novo_saldo resp = Saldo.saldo_atual row - q /\
   (alerta_estoque_minimo resp = true <->
    novo_saldo resp < Produto.nivel_minimo p)) /\
  find_saldo k (tables db') =
  Some {| Saldo.sku_id := Saldo.sku_id row;
          Saldo.saldo_atual := novo_saldo resp;
          Saldo.ultima_atualizacao := now |}.
Proof.
  intros k tipo q Hp Hrow _ Hrun.
  pose proof (lancar_movimentacao_effect faults now mov db) as H.
  cbn zeta in H. rewrite Hrun in H. cbn [fst snd] in H.
  fold k tipo q in H.
  destruct H as [[_ [e He]] | (row' & Hrow' & Htipo & Hdb & Hres)];
    [discriminate |].
  rewrite Hrow in Hrow'. injection Hrow' as <-.
  destruct Hres as [Hres | [_ [msg Hres]]]; [| discriminate].
  injection Hres as ->. cbn [novo_saldo alerta_estoque_minimo].
  rewrite Hp. subst db'. cbn [tables posted].
  unfold find_saldo in *. unfold posted. cbn [saldo_estoque].
  rewrite (find_set_saldo _ _ _ _ _ Hrow).
  unfold novo_saldo_de, alerta_de.
  split; [tauto |].
  split; [| split; [| reflexivity]].
  - intros ->. cbn. split; reflexivity.
  - intros ->. cbn. split; [reflexivity |]. apply Z.ltb_lt.
Qed.

Lemma posting_result_witness :
  ("S" = "E" \/ "S" = "S") /\
  ("S" = "E" -> 3 = 10 + 7 /\ true = false) /\
  ("S" = "S" -> 3 = 10 - 7 /\ (true = true <-> 3 < 5)) /\
  find_saldo "A1" (tables db_A1_3) =
  Some {| Saldo.sku_id := "A1"; Saldo.saldo_atual := 3;
          Saldo.ultima_atualizacao := 102 |}.
Proof.
  exact
    (posting_result [] 102 (movimentacao "A1" "S" 7) db_A1_10 db_A1_3
       {| Produto.sku_id := "A1"; Produto.nome := "Parafuso";
          Produto.nivel_minimo := 5; Produto.nivel_maximo := 100;
          Produto.custo_fabricacao := 2.0%float |}
       {| Saldo.sku_id := "A1"; Saldo.saldo_atual := 10;
          Saldo.ultima_atualizacao := 101 |}
       {| message := "Movimentação 'S' registrada."; sku := "A1";
          novo_saldo := 3; alerta_estoque_minimo := true |}
       eq_refl eq_refl eq_refl eq_refl).
Defined.

Lemma cadastrar_produto_effect
  (faults : list (option string)) (now : Z) (p : ProdutoCreate.t)
  (db : Database) :
  let k := ProdutoCreate.sku_id p in
  let r := cadastrar_produto faults now p db in
  (snd r = db /\ exists e, fst r = Raise e) \/
  (find_produto k (tables db) = None /\
   find_saldo k (tables db) = None /\
   r = (Return (cadastro_ok p),
        {| tables := registered now p (tables db);
           mov_id_seq := mov_id_seq db |})).
Proof.
  destruct db as [t i]. cbn zeta.
  unfold cadastrar_produto, find_produto, find_saldo, registered, cadastro_ok.
  run_session; try unchanged;
    (destruct (find _ (produto t)) eqn:Hp; cbn; [unchanged |]);
    repeat next_round_trip; try unchanged;
    rewrite (find_existsb_None _ _ Hp); cbn;
    repeat next_round_trip; try unchanged;
    (destruct (existsb _ (saldo_estoque t)) eqn:Hs; cbn; [unchanged |]);
    repeat next_round_trip; try unchanged;
    right; apply existsb_find_None in Hs; cbn in Hs;
    (split; [reflexivity |]); (split; [exact Hs | reflexivity]).
Qed.



Lemma consultar_saldo_effect
  (faults : list (option string)) (k : string) (db : Database) :
  consultar_saldo faults k db =
  (match first_fault faults with
   | Some msg => Raise (DBAPIError msg)
   | None =>
     match find_saldo k (tables db) with
     | Some row => Return row
     | None => Raise (HTTPException 404 "SKU não encontrado.")
     end
   end, db).
Proof.
  destruct db as [t i]. unfold consultar_saldo, find_saldo.
  run_session; try reflexivity;
    destruct (find _ (saldo_estoque t)); reflexivity.
Qed.

Lemma listar_produtos_unchanged
  (faults : list (option string)) (db : Database) :
  snd (listar_produtos faults db) = db.
Proof.
  destruct db as [t i]. unfold listar_produtos.
  run_session; reflexivity.
Qed.

(** ** Reads between postings *)

Lemma run_op_keeps_saldo (o : op) (db : Database) (k : string)
  (row : Saldo.row) :
  is_PostMovement o = false ->
  find_saldo k (tables db) = Some row ->
  find_saldo k (tables (run_op o db)) = Some row.
Proof.
  intros Ho Hrow. destruct o as [f n p | f n m | f k' | f]; cbn.
  - destruct (cadastrar_produto_effect f n p db) as [[-> _] | (_ & _ & ->)];
      [exact Hrow |].
    cbn. unfold find_saldo, registered in *. cbn.
    apply find_app_Some. exact Hrow.
  - discriminate.
  - rewrite consultar_saldo_effect. exact Hrow.
  - rewrite listar_produtos_unchanged. exact Hrow.
Qed.

Lemma run_keeps_saldo (ops : list op) (db : Database) (k : string)
  (row : Saldo.row) :
  forallb (fun o => negb (is_PostMovement o)) ops = true ->
  find_saldo k (tables db) = Some row ->
  find_saldo k (tables (run ops db)) = Some row.
Proof.
  revert db. induction ops as [| o ops IH]; intros db Hops Hrow; cbn in *.
  - exact Hrow.
  - apply andb_true_iff in Hops. destruct Hops as [Ho Hops].
    apply negb_true_iff in Ho.
    apply IH; [exact Hops |]. apply run_op_keeps_saldo; assumption.
Qed.

(** C9: [consultar_saldo] leaves the database as it was, and on a SKU that
    has a balance row a second call answers as the first did, also when
    calls other than postings (registrations, reads) came in between. *)
Theorem get_balance_idempotent
  (faults : list (option string)) (k : string) (db : Database)
  (between : list op) (row : Saldo.row) :
  find_saldo k (tables db) = Some row ->
  forallb (fun o => negb (is_PostMovement o)) between = true ->
  snd (consultar_saldo faults k db) = db /\
  fst (consultar_saldo faults k
         (run between (snd (consultar_saldo faults k db)))) =
  fst (consultar_saldo faults k db).
Proof.
  intros Hrow Hops. rewrite !consultar_saldo_effect. cbn [fst snd].
  split; [reflexivity |].
  rewrite (run_keeps_saldo between db k row Hops Hrow), Hrow. reflexivity.
Qed.

Lemma get_balance_idempotent_witness :
  snd (consultar_saldo [] "A1" db_A1_3) = db_A1_3 /\
  fst (consultar_saldo [] "A1"
         (run [ListProducts []; Register [] 105 produto_A1]
              (snd (consultar_saldo [] "A1" db_A1_3)))) =
  fst (consultar_saldo [] "A1" db_A1_3).
Proof.
  apply (get_balance_idempotent [] "A1" db_A1_3
           [ListProducts []; Register [] 105 produto_A1]
           {| Saldo.sku_id := "A1"; Saldo.saldo_atual := 3;
              Saldo.ultima_atualizacao := 102 |});
    reflexivity.
Defined.

(** ** The balance and the movement log *)

Lemma signed_sum_app (k : string) (l : list Movimentacao.row)
  (m : Movimentacao.row) :
  signed_sum k (l ++ [m]) =
  signed_sum k l + (if Movimentacao.sku_id m =? k then signed_quantity m else 0).
Proof.
  induction l as [| a l IH]; cbn; [lia |]. rewrite IH. lia.
Qed.

Lemma find_saldo_key (k : string) (t : Tables) (row : Saldo.row) :
  find_saldo k t = Some row -> Saldo.sku_id row = k.
Proof.
  unfold find_saldo. intros H. apply find_some in H.
  apply String.eqb_eq. apply H.
Qed.

Lemma find_saldo_None_not_In (k : string) (t : Tables) :
  find_saldo k t = None -> ~ In k (map Saldo.sku_id (saldo_estoque t)).
Proof.
  unfold find_saldo. intros H Hin. apply in_map_iff in Hin.
  destruct Hin as (r & <- & Hr).
  apply (find_none _ _ H) in Hr. rewrite String.eqb_refl in Hr. discriminate.
Qed.

Lemma NoDup_app_singleton {A} (l : list A) (a : A) :
  NoDup l -> ~ In a l -> NoDup (l ++ [a]).
Proof.
  induction l as [| b l IH]; cbn; intros Hl Ha.
  - constructor; [intros [] | constructor].
  - inversion Hl as [| ? ? Hb Hl']; subst. constructor.
    + rewrite in_app_iff. cbn. intros [H | [H | []]]; [auto | subst; auto].
    + apply IH; [exact Hl' | auto].
Qed.

Lemma find_saldo_of_In (t : Tables) (row : Saldo.row) :
  NoDup (map Saldo.sku_id (saldo_estoque t)) ->
  In row (saldo_estoque t) ->
  find_saldo (Saldo.sku_id row) t = Some row.
Proof.
  unfold find_saldo. induction (saldo_estoque t) as [| r l IH]; cbn;
    intros Hl Hin; [contradiction |].
  inversion Hl as [| ? ? Hr Hl']; subst.
  destruct Hin as [-> | Hin]; [rewrite String.eqb_refl; reflexivity |].
  destruct (String.eqb_spec (Saldo.sku_id r) (Saldo.sku_id row)) as [E | _].
  - exfalso. apply Hr. rewrite E. apply in_map. exact Hin.
  - apply IH; assumption.
Qed.

Lemma ledger_consistent_empty : ledger_consistent empty_tables.
Proof.
  split; cbn; intros; try discriminate; try reflexivity. constructor.
Qed.

Lemma ledger_consistent_registered (now : Z) (p : ProdutoCreate.t)
  (t : Tables) :
  find_saldo (ProdutoCreate.sku_id p) t = None ->
  ledger_consistent t -> ledger_consistent (registered now p t).
Proof.
  intros Hnew [Hsum Hnone Hprod Huniq]. split.
  4: { unfold registered. cbn. rewrite map_app. cbn.
       apply NoDup_app_singleton; [exact Huniq |].
       apply find_saldo_None_not_In. exact Hnew. }
  - intros k row. unfold find_saldo, registered. cbn.
    destruct (find_saldo k t) as [row' |] eqn:Hk; unfold find_saldo in Hk.
    + rewrite (find_app_Some _ _ _ _ Hk). intros [= <-]. apply Hsum. exact Hk.
    + rewrite (find_app_None _ _ _ Hk). cbn.
      destruct (ProdutoCreate.sku_id p =? k) eqn:E; [| discriminate].
      intros [= <-]. cbn. rewrite (Hnone k Hk). lia.
  - intros k. unfold find_saldo, registered. cbn. intros H.
    apply Hnone. unfold find_saldo.
    destruct (find _ (saldo_estoque t)) eqn:Hk; [| reflexivity].
    rewrite (find_app_Some _ _ _ _ Hk) in H. discriminate.
  - intros k q. unfold find_produto, find_saldo, registered. cbn. intros H.
    destruct (find_saldo k t) as [row' |] eqn:Hk; unfold find_saldo in Hk.
    + exists row'. apply find_app_Some. exact Hk.
    + rewrite (find_app_None _ _ _ Hk). cbn.
      destruct (ProdutoCreate.sku_id p =? k) eqn:E; [eexists; reflexivity |].
      destruct (find (fun r => Produto.sku_id r =? k) (produto t)) eqn:Hq.
      * destruct (Hprod k r Hq) as [row Hrow]. unfold find_saldo in Hrow.
        congruence.
      * rewrite (find_app_None _ _ _ Hq) in H. cbn in H. rewrite E in H.
        discriminate.
Qed.

Lemma ledger_consistent_posted (now : Z) (k tipo : string) (q i : Z)
  (t : Tables) (row : Saldo.row) :
  find_saldo k t = Some row ->
  tipo = "E" /\ 0 <= q \/ tipo = "S" /\ q <= Saldo.saldo_atual row ->
  ledger_consistent t ->
  ledger_consistent
    (posted now k tipo q (novo_saldo_de tipo (Saldo.saldo_atual row) q) i t).
Proof.
  intros Hrow Htipo [Hsum Hnone Hprod Huniq].
  assert (Hsigned :
            0 <= Saldo.saldo_atual row ->
            0 <= novo_saldo_de tipo (Saldo.saldo_atual row) q).
  { unfold novo_saldo_de.
    destruct Htipo as [[-> ?] | [-> ?]]; cbn; lia. }
  assert (Hnovo :
            novo_saldo_de tipo (Saldo.saldo_atual row) q =
            Saldo.saldo_atual row +
            signed_quantity
              {| Movimentacao.mov_id := i; Movimentacao.sku_id := k;
                 Movimentacao.data_movimentacao := now;
                 Movimentacao.tipo_movimentacao := tipo;
                 Movimentacao.quantidade := q |}).
  { unfold novo_saldo_de, signed_quantity. cbn.
    destruct Htipo as [[-> ?] | [-> ?]]; cbn; lia. }
  destruct (Hsum k row Hrow) as [Hrow_sum Hrow_pos].
  split.
  4: { unfold posted. cbn. rewrite map_map.
       rewrite (map_ext _ Saldo.sku_id); [exact Huniq |].
       intros r. apply set_saldo_sku_id. }
  - intros k' row'. unfold find_saldo, posted. cbn. rewrite signed_sum_app. cbn.
    destruct (String.eqb_spec k k') as [<- | Hk].
    + unfold find_saldo in Hrow. rewrite (find_set_saldo _ _ _ _ _ Hrow).
      intros [= <-]. cbn. split; [lia |].
      apply Hsigned. exact Hrow_pos.
    + rewrite find_set_saldo_other by congruence.
      intros H. rewrite Z.add_0_r. apply Hsum. exact H.
  - intros k'. unfold find_saldo, posted. cbn. rewrite signed_sum_app. cbn.
    destruct (String.eqb_spec k k') as [<- | Hk].
    + unfold find_saldo in Hrow. rewrite (find_set_saldo _ _ _ _ _ Hrow).
      discriminate.
    + rewrite find_set_saldo_other by congruence.
      intros H. rewrite (Hnone k' H). reflexivity.
  - intros k' p. unfold find_produto, find_saldo, posted. cbn. intros H.
    destruct (Hprod k' p H) as [row' Hrow'].
    destruct (String.eqb_spec k k') as [<- | Hk].
    + unfold find_saldo in Hrow. rewrite (find_set_saldo _ _ _ _ _ Hrow).
      eexists; reflexivity.
    + rewrite find_set_saldo_other by congruence. exists row'. exact Hrow'.
Qed.

Lemma run_op_consistent (o : op) (db : Database) :
  well_formed o ->
  ledger_consistent (tables db) -> ledger_consistent (tables (run_op o db)).
Proof.
  intros Ho Hdb. destruct o as [f n p | f n m | f k | f]; cbn.
  - destruct (cadastrar_produto_effect f n p db) as [[-> _] | (_ & Hs & ->)];
      [exact Hdb |].
    cbn. apply ledger_consistent_registered; assumption.
  - destruct (lancar_movimentacao_effect f n m db)
      as [[-> _] | (row & Hrow & Htipo & -> & _)]; [exact Hdb |].
    cbn [tables]. cbn in Ho.
    apply ledger_consistent_posted; [exact Hrow | | exact Hdb].
    destruct Htipo as [HE | HS]; [left; split; [exact HE | lia] | right; exact HS].
  - rewrite consultar_saldo_effect. exact Hdb.
  - rewrite listar_produtos_unchanged. exact Hdb.
Qed.

Lemma run_consistent (ops : list op) (db : Database) :
  Forall well_formed ops ->
  ledger_consistent (tables db) -> ledger_consistent (tables (run ops db)).
Proof.
  revert db. induction ops as [| o ops IH]; intros db Hops Hdb; cbn.
  - exact Hdb.
  - inversion Hops as [| ? ? Ho Hrest]; subst.
    apply IH; [exact Hrest |]. apply run_op_consistent; assumption.
Qed.

(** C1: after any sequence of calls from the empty database in which every
    posting has direction 'E' or 'S' and a positive quantity, whatever the
    storage layer did during them, every registered SKU has a balance row,
    and every balance row of that SKU is the one the endpoints read, holds
    the sum of the signed quantities of the movements of the SKU, and is not
    negative. *)
Theorem balance_equals_signed_movements
  (ops : list op) (k : string) (p : Produto.row) :
  Forall well_formed ops ->
  let t := tables (run ops empty_database) in
  find_produto k t = Some p ->
  (exists row, In row (saldo_estoque t) /\ Saldo.sku_id row = k) /\
  (forall row, In row (saldo_estoque t) -> Saldo.sku_id row = k ->
     find_saldo k t = Some row /\
     Saldo.saldo_atual row = signed_sum k (movimentacao_estoque t) /\
     0 <= Saldo.saldo_atual row).
Proof.
  intros Hops t Hp.
  assert (Ht : ledger_consistent t)
    by (apply run_consistent; [exact Hops | exact ledger_consistent_empty]).
  split.
  - destruct (product_has_balance t Ht k p Hp) as [row Hrow].
    exists row. split; [| exact (find_saldo_key k t row Hrow)].
    unfold find_saldo in Hrow. apply find_some in Hrow. apply Hrow.
  - intros row Hin <-.
    pose proof (find_saldo_of_In t row (balance_unique t Ht) Hin) as Hrow.
    split; [exact Hrow |]. exact (balance_is_sum t Ht _ row Hrow).
Qed.

Lemma balance_equals_signed_movements_witness :
  (exists row,
      In row (saldo_estoque (tables (run dia_A1 empty_database))) /\
      Saldo.sku_id row = "A1") /\
  (forall row,
      In row (saldo_estoque (tables (run dia_A1 empty_database))) ->
      Saldo.sku_id row = "A1" ->
      find_saldo "A1" (tables (run dia_A1 empty_database)) = Some row /\
      Saldo.saldo_atual row =
      signed_sum "A1"
        (movimentacao_estoque (tables (run dia_A1 empty_database))) /\
      0 <= Saldo.saldo_atual row).
Proof.
  apply (balance_equals_signed_movements dia_A1 "A1"
           {| Produto.sku_id := "A1"; Produto.nome := "Parafuso";
              Produto.nivel_minimo := 5; Produto.nivel_maximo := 100;
              Produto.custo_fabricacao := 2.0%float |}).
  - unfold dia_A1.
    repeat (apply Forall_cons || apply Forall_nil); cbn;
      try exact I; (split; [auto | lia]).
  - reflexivity.
Defined.

(** ** The maximum threshold is never read *)













Lemma mask_movimentacao_estoque (w1 w2 : Tables) :
  mask w1 = mask w2 -> movimentacao_estoque w1 = movimentacao_estoque w2.
Proof. intros H. exact (f_equal movimentacao_estoque H). Qed.















(** ** Two postings at once *)


Lemma handler_step_remaining (now : Z) (mov : MovimentacaoCreate.t)
  (h : bool) (db db' : Database) (a a' : pc) :
  handler_step now mov h db a = Some (db', a') ->
  (remaining a' < remaining a)%nat.
Proof.
  destruct a; cbn; intros H;
    repeat match type of H with
           | context [if ?b then _ else _] => destruct b
           | context [match ?x with Some _ => _ | None => _ end] => destruct x
           end;
    inversion H; subst; cbn; lia.
Qed.

Lemma handler_step_lock_free (now : Z) (mov : MovimentacaoCreate.t)
  (db db' : Database) (a a' : pc) :
  handler_step now mov true db a = Some (db', a') ->
  handler_step now mov false db a = Some (db', a').
Proof.
  destruct a; cbn; try exact (fun H => H).
  destruct (find_saldo _ _); [discriminate | exact (fun H => H)].
Qed.




















Section TwoPostings.

Variables (now1 now2 : Z) (mov1 mov2 : MovimentacaoCreate.t).
Variable db0 : Database.

Hypothesis same_sku :
  MovimentacaoCreate.sku_id mov1 = MovimentacaoCreate.sku_id mov2.
Hypothesis valid1 :
  tipo_valido (MovimentacaoCreate.tipo_movimentacao mov1) = true.
Hypothesis valid2 :
  tipo_valido (MovimentacaoCreate.tipo_movimentacao mov2) = true.
Hypothesis has_balance :
  find_saldo (MovimentacaoCreate.sku_id mov1) (tables db0) <> None.






End TwoPostings.

Lemma step_remaining (now1 now2 : Z) (mov1 mov2 : MovimentacaoCreate.t)
  (c c' : config) :
  step now1 now2 mov1 mov2 c c' ->
  (remaining (left_at c') + remaining (right_at c')
   < remaining (left_at c) + remaining (right_at c))%nat.
Proof.
  intros [? db' a' H | ? db' a' H]; apply handler_step_remaining in H;
    cbn; lia.
Qed.

Lemma handler_step_total (now : Z) (mov : MovimentacaoCreate.t) (h : bool)
  (db : Database) (a : pc) :
  (forall o, a <> Done o) -> (a = AtSelect -> h = false) ->
  exists r, handler_step now mov h db a = Some r.
Proof.
  intros Hdone Hsel. destruct a; cbn; try (eexists; reflexivity).
  - destruct (negb _); eexists; reflexivity.
  - rewrite (Hsel eq_refl). destruct (find_saldo _ _); eexists; reflexivity.
  - destruct (_ =? "E"); [eexists; reflexivity |].
    destruct (_ =? "S"); [| eexists; reflexivity].
    destruct (_ >? _); eexists; reflexivity.
  - exfalso. exact (Hdone o eq_refl).
Qed.

Lemma left_can_step (now1 now2 : Z) (mov1 mov2 : MovimentacaoCreate.t)
  (db : Database) (a b : pc) :
  (forall o, a <> Done o) -> (a = AtSelect -> holds_lock b = false) ->
  exists c', step now1 now2 mov1 mov2
               {| shared := db; left_at := a; right_at := b |} c'.
Proof.
  intros Hdone Hsel.
  destruct (handler_step_total now1 mov1
              (same_row mov1 mov2 && holds_lock b) db a Hdone)
    as [[db' a'] H].
  - intros E. rewrite (Hsel E). apply andb_false_r.
  - eexists.
    exact (step_left now1 now2 mov1 mov2
             {| shared := db; left_at := a; right_at := b |} db' a' H).
Qed.

Lemma right_can_step (now1 now2 : Z) (mov1 mov2 : MovimentacaoCreate.t)
  (db : Database) (a b : pc) :
  (forall o, b <> Done o) -> (b = AtSelect -> holds_lock a = false) ->
  exists c', step now1 now2 mov1 mov2
               {| shared := db; left_at := a; right_at := b |} c'.
Proof.
  intros Hdone Hsel.
  destruct (handler_step_total now2 mov2
              (same_row mov1 mov2 && holds_lock a) db b Hdone)
    as [[db' b'] H].
  - intros E. rewrite (Hsel E). apply andb_false_r.
  - eexists.
    exact (step_right now1 now2 mov1 mov2
             {| shared := db; left_at := a; right_at := b |} db' b' H).
Qed.

(** No deadlock: as long as a handler has not answered, one of the two can
    run its next statement. *)
Lemma step_or_finished (now1 now2 : Z) (mov1 mov2 : MovimentacaoCreate.t)
  (c : config) :
  finished c \/ exists c', step now1 now2 mov1 mov2 c c'.
Proof.
  destruct c as [db a b].
  destruct a, b;
    try (left; do 2 eexists; split; reflexivity);
    right;
    solve [ apply left_can_step;
            [intros ?; discriminate | intros ?; (discriminate || reflexivity)]
          | apply right_can_step;
            [intros ?; discriminate | intros ?; (discriminate || reflexivity)] ].
Qed.




Lemma saida_alone (now : Z) (k : string) (q : Z) (db : Database)
  (row : Saldo.row) :
  find_saldo k (tables db) = Some row ->
  lancar_movimentacao [] now (movimentacao k "S" q) db =
  if q >? Saldo.saldo_atual row
  then (Raise (estoque_insuficiente (Saldo.saldo_atual row)), db)
  else (Return {| message := "Movimentação 'S' registrada.";
                  sku := k;
                  novo_saldo := Saldo.saldo_atual row - q;
                  alerta_estoque_minimo :=
                    alerta_de "S" (Saldo.saldo_atual row - q)
                      (find_produto k (tables db)) |},
        {| tables :=
             posted now k "S" q (Saldo.saldo_atual row - q) (mov_id_seq db)
               (tables db);
           mov_id_seq := mov_id_seq db + 1 |}).
Proof.
  intros Hrow. unfold find_saldo in Hrow. destruct db as [t i].
  unfold lancar_movimentacao, find_produto, alerta_de. cbn.
  run_session. cbn in Hrow. rewrite Hrow. cbn.
  destruct (q >? Saldo.saldo_atual row); cbn; [reflexivity |].
  destruct (find _ (produto t)); reflexivity.
Qed.





(** * Further properties of the endpoints *)

(** ** Which errors leave an endpoint *)




(** ** What a posting leaves behind *)

(** X3: whatever the storage layer does, a posting leaves the tables either
    as they were or with both of its writes, the movement appended and the
    balance of its SKU replaced by the new balance; never one write without
    the other.  When it returns the two writes are there, and when it raises
    one of its 400 or 404 errors the database is untouched. *)
Theorem posting_all_or_nothing
  (faults : list (option string)) (now : Z) (mov : MovimentacaoCreate.t)
  (db : Database) :
  let k := MovimentacaoCreate.sku_id mov in
  let tipo := MovimentacaoCreate.tipo_movimentacao mov in
  let q := MovimentacaoCreate.quantidade mov in
  let r := lancar_movimentacao faults now mov db in
  (tables (snd r) = tables db \/
   exists row,
     find_saldo k (tables db) = Some row /\
     tables (snd r) =
     posted now k tipo q (novo_saldo_de tipo (Saldo.saldo_atual row) q)
       (mov_id_seq db) (tables db)) /\
  (forall resp, fst r = Return resp -> tables (snd r) <> tables db) /\
  (forall c d, fst r = Raise (HTTPException c d) -> c <> 500 -> snd r = db).
Proof.
  cbn zeta. split; [| split].
  - destruct (lancar_movimentacao_effect faults now mov db)
      as [[H _] | (row & Hrow & _ & H & _)]; [left; exact H |].
    right. exists row. split; [exact Hrow |]. rewrite H. reflexivity.
  - intros resp Hresp.
    destruct (lancar_movimentacao_effect faults now mov db)
      as [[_ [e He]] | (row & Hrow & _ & H & _)]; [congruence |].
    rewrite H. cbn. unfold posted. intros Heq.
    apply (f_equal movimentacao_estoque) in Heq. cbn in Heq.
    apply (f_equal (@List.length Movimentacao.row)) in Heq.
    rewrite List.length_app in Heq. cbn in Heq. lia.
  - destruct mov as [k tipo q]. destruct db as [t i].
    unfold lancar_movimentacao. cbn.
    destruct (tipo_valido tipo) eqn:Htipo; cbn; [| reflexivity].
    intros c d.
    apply tipo_valido_cases in Htipo. destruct Htipo as [-> | ->]; cbn.
    + run_session;
        try (intros [= <- <-] Hc; congruence);
        (destruct (find _ (saldo_estoque t)) as [row |] eqn:Hrow; cbn;
         [| reflexivity]);
        repeat next_round_trip;
        try (intros [= <- <-] Hc; congruence);
        discriminate.
    + run_session;
        try (intros [= <- <-] Hc; congruence);
        (destruct (find _ (saldo_estoque t)) as [row |] eqn:Hrow; cbn;
         [| reflexivity]);
        (destruct (q >? Saldo.saldo_atual row) eqn:Hq; cbn; [reflexivity |]);
        repeat next_round_trip;
        try (intros [= <- <-] Hc; congruence);
        try (destruct (find _ (produto t)); cbn);
        discriminate.
Qed.





(** ** What no call ever does *)

Lemma grows_refl (t : Tables) : grows t t.
Proof. repeat split; exists []; rewrite app_nil_r; reflexivity. Qed.

Lemma grows_trans (t1 t2 t3 : Tables) :
  grows t1 t2 -> grows t2 t3 -> grows t1 t3.
Proof.
  intros ([l1 H1] & [m1 M1] & [s1 S1]) ([l2 H2] & [m2 M2] & [s2 S2]).
  repeat split.
  - exists (l1 ++ l2)%list. rewrite H2, H1, app_assoc. reflexivity.
  - exists (m1 ++ m2)%list. rewrite M2, M1, app_assoc. reflexivity.
  - exists (s1 ++ s2)%list. rewrite S2, S1, app_assoc. reflexivity.
Qed.

Lemma map_set_saldo_keys (k : string) (novo now : Z) (l : list Saldo.row) :
  map Saldo.sku_id (map (set_saldo k novo now) l) = map Saldo.sku_id l.
Proof.
  rewrite map_map. apply map_ext. intros r. apply set_saldo_sku_id.
Qed.

Lemma run_op_grows (o : op) (db : Database) :
  grows (tables db) (tables (run_op o db)).
Proof.
  destruct o as [f n p | f n m | f k | f]; cbn.
  - destruct (cadastrar_produto_effect f n p db) as [[-> _] | (_ & _ & ->)];
      [apply grows_refl |].
    cbn. unfold registered. repeat split; cbn.
    + eexists. reflexivity.
    + exists []. rewrite app_nil_r. reflexivity.
    + eexists. rewrite map_app. reflexivity.
  - destruct (lancar_movimentacao_effect f n m db)
      as [[-> _] | (row & _ & _ & -> & _)]; [apply grows_refl |].
    cbn. unfold posted. repeat split; cbn.
    + exists []. rewrite app_nil_r. reflexivity.
    + eexists. reflexivity.
    + exists []. rewrite app_nil_r. apply map_set_saldo_keys.
  - rewrite consultar_saldo_effect. apply grows_refl.
  - rewrite listar_produtos_unchanged. apply grows_refl.
Qed.

Lemma run_grows (ops : list op) (db : Database) :
  grows (tables db) (tables (run ops db)).
Proof.
  revert db. induction ops as [| o ops IH]; intros db; cbn.
  - apply grows_refl.
  - eapply grows_trans; [apply run_op_grows | apply IH].
Qed.

Lemma run_keeps_produto (ops : list op) (db : Database) (k : string)
  (p : Produto.row) :
  find_produto k (tables db) = Some p ->
  find_produto k (tables (run ops db)) = Some p.
Proof.
  intros Hp. destruct (run_grows ops db) as ([l Hl] & _).
  unfold find_produto in *. rewrite Hl. apply find_app_Some. exact Hp.
Qed.

(** X6: no sequence of calls, whatever the storage layer does, updates or
    deletes a product or a movement, or removes a balance row: the product
    table and the movement log only get rows appended, the balance rows stay
    those of the same SKUs, and a product that could be found is found
    again, unchanged. *)
Theorem tables_only_grow (ops : list op) (db : Database) :
  grows (tables db) (tables (run ops db)) /\
  (forall k p, find_produto k (tables db) = Some p ->
               find_produto k (tables (run ops db)) = Some p) /\
  (forall k row, find_saldo k (tables db) = Some row ->
     exists row', find_saldo k (tables (run ops db)) = Some row' /\
                  Saldo.sku_id row' = Saldo.sku_id row).
Proof.
  pose proof (run_grows ops db) as Hg. split; [exact Hg |].
  destruct Hg as (_ & _ & [s Hs]). split.
  - intros k p. apply run_keeps_produto.
  - intros k row Hrow.
    destruct (find_saldo k (tables (run ops db))) as [row' |] eqn:Hrow'.
    + exists row'. split; [reflexivity |].
      rewrite (find_saldo_key _ _ _ Hrow), (find_saldo_key _ _ _ Hrow').
      reflexivity.
    + exfalso. apply find_saldo_None_not_In in Hrow'. apply Hrow'.
      rewrite Hs. apply in_or_app. left.
      rewrite <- (find_saldo_key _ _ _ Hrow).
      apply in_map. unfold find_saldo in Hrow.
      apply find_some in Hrow. apply Hrow.
Qed.







(** X8: a posting touches no SKU but its own: whatever the storage layer
    does and whatever the outcome, the balance row of every other SKU is
    what it was, and so is the whole product table. *)
Theorem posting_frame
  (faults : list (option string)) (now : Z) (mov : MovimentacaoCreate.t)
  (db : Database) (k' : string) :
  k' <> MovimentacaoCreate.sku_id mov ->
  find_saldo k' (tables (snd (lancar_movimentacao faults now mov db))) =
  find_saldo k' (tables db) /\
  produto (tables (snd (lancar_movimentacao faults now mov db))) =
  produto (tables db).
Proof.
  intros Hk.
  destruct (lancar_movimentacao_effect faults now mov db)
    as [[-> _] | (row & _ & _ & -> & _)]; [split; reflexivity |].
  cbn. unfold find_saldo, posted. cbn. split; [| reflexivity].
  apply find_set_saldo_other. exact Hk.
Qed.

Lemma posting_frame_witness :
  find_saldo "A1"
    (tables (snd (lancar_movimentacao [] 140 (movimentacao "B7" "S" 3)
                    db_A1_B7))) =
  find_saldo "A1" (tables db_A1_B7) /\
  produto (tables (snd (lancar_movimentacao [] 140 (movimentacao "B7" "S" 3)
                          db_A1_B7))) =
  produto (tables db_A1_B7).
Proof.
  assert (Hne : "A1" <> "B7") by discriminate.
  exact (posting_frame [] 140 (movimentacao "B7" "S" 3) db_A1_B7 "A1" Hne).
Defined.

(** ** Registration and what follows it *)

Lemma cadastrar_produto_existing
  (faults : list (option string)) (now : Z) (p : ProdutoCreate.t)
  (db : Database) (old : Produto.row) :
  find_produto (ProdutoCreate.sku_id p) (tables db) = Some old ->
  snd (cadastrar_produto faults now p db) = db /\
  (fst (cadastrar_produto faults now p db) =
   Raise (HTTPException 400 "SKU já cadastrado.") \/
   exists msg, fst (cadastrar_produto faults now p db) = Raise (DBAPIError msg)).
Proof.
  intros Hold. unfold find_produto in Hold.
  unfold cadastrar_produto. destruct db as [t i].
  run_session; cbn in *; rewrite ?Hold; cbn;
    (split; [reflexivity |]);
    try (left; reflexivity); right; eexists; reflexivity.
Qed.

(** X9: once a registration has returned, the SKU is taken for good:
    whatever calls follow, a later registration of the same SKU, with
    whatever name, levels and cost, is refused (400 "SKU já cadastrado.",
    or the driver error of a failed select) and changes nothing, and the
    product row is still the one first registered. *)
Theorem sku_registered_once
  (faults faults' : list (option string)) (now now' : Z)
  (p p' : ProdutoCreate.t) (db db' : Database) (r : CadastroResponse)
  (between : list op) :
  cadastrar_produto faults now p db = (Return r, db') ->
  ProdutoCreate.sku_id p' = ProdutoCreate.sku_id p ->
  let later := run between db' in
  snd (cadastrar_produto faults' now' p' later) = later /\
  (fst (cadastrar_produto faults' now' p' later) =
   Raise (HTTPException 400 "SKU já cadastrado.") \/
   exists msg,
     fst (cadastrar_produto faults' now' p' later) = Raise (DBAPIError msg)) /\
  find_produto (ProdutoCreate.sku_id p) (tables later) =
  Some {| Produto.sku_id := ProdutoCreate.sku_id p;
          Produto.nome := ProdutoCreate.nome p;
          Produto.nivel_minimo := ProdutoCreate.nivel_minimo p;
          Produto.nivel_maximo := ProdutoCreate.nivel_maximo p;
          Produto.custo_fabricacao := ProdutoCreate.custo_fabricacao p |}.
Proof.
  intros Hreg Hsku later.
  assert (Hfound :
            find_produto (ProdutoCreate.sku_id p) (tables later) =
            Some {| Produto.sku_id := ProdutoCreate.sku_id p;
                    Produto.nome := ProdutoCreate.nome p;
                    Produto.nivel_minimo := ProdutoCreate.nivel_minimo p;
                    Produto.nivel_maximo := ProdutoCreate.nivel_maximo p;
                    Produto.custo_fabricacao :=
                      ProdutoCreate.custo_fabricacao p |}).
  { apply run_keeps_produto.
    destruct (cadastrar_produto_effect faults now p db)
      as [[_ [e He]] | (Hp & _ & Hrun)].
    - rewrite Hreg in He. discriminate.
    - rewrite Hreg in Hrun. injection Hrun as _ ->. cbn.
      unfold find_produto, registered in *. cbn.
      rewrite (find_app_None _ _ _ Hp). cbn.
      rewrite String.eqb_refl. reflexivity. }
  rewrite <- Hsku in Hfound at 1.
  destruct (cadastrar_produto_existing faults' now' p' later _ Hfound)
    as [Hdb Herr].
  rewrite Hsku in Hfound. auto.
Qed.

(** X10: a registration that returned leaves a SKU with nothing in stock:
    [consultar_saldo] answers its balance row, 0 units at the time of the
    registration, and any withdrawal of a positive quantity is refused with
    "Estoque insuficiente. Saldo atual: 0", leaving the database as the
    registration left it. *)
Theorem fresh_sku_is_empty
  (faults : list (option string)) (now now' : Z) (p : ProdutoCreate.t)
  (db db' : Database) (r : CadastroResponse) (q : Z) :
  cadastrar_produto faults now p db = (Return r, db') ->
  q > 0 ->
  consultar_saldo [] (ProdutoCreate.sku_id p) db' =
  (Return {| Saldo.sku_id := ProdutoCreate.sku_id p;
             Saldo.saldo_atual := 0;
             Saldo.ultima_atualizacao := now |}, db') /\
  lancar_movimentacao [] now' (movimentacao (ProdutoCreate.sku_id p) "S" q) db'
  = (Raise (HTTPException 400 "Estoque insuficiente. Saldo atual: 0"), db').
Proof.
  intros Hreg Hq.
  assert (Hrow : find_saldo (ProdutoCreate.sku_id p) (tables db') =
                 Some {| Saldo.sku_id := ProdutoCreate.sku_id p;
                         Saldo.saldo_atual := 0;
                         Saldo.ultima_atualizacao := now |}).
  { destruct (cadastrar_produto_effect faults now p db)
      as [[_ [e He]] | (_ & Hs & Hrun)].
    - rewrite Hreg in He. discriminate.
    - rewrite Hreg in Hrun. injection Hrun as _ ->. cbn.
      unfold find_saldo, registered in *. cbn.
      rewrite (find_app_None _ _ _ Hs). cbn.
      rewrite String.eqb_refl. reflexivity. }
  split.
  - rewrite consultar_saldo_effect, Hrow. reflexivity.
  - rewrite (saida_alone now' _ q db' _ Hrow). cbn [Saldo.saldo_atual].
    destruct (q >? 0) eqn:E; [reflexivity |].
    rewrite Z.gtb_ltb in E. apply Z.ltb_ge in E. lia.
Qed.

(** ** The catalogue *)






Lemma listar_produtos_ok (db : Database) :
  listar_produtos [] db = (Return (map listado (join_produto_saldo (tables db))), db).
Proof. destruct db as [t i]. reflexivity. Qed.




(** ** Two postings at once, continued *)





Lemma steps_n_remaining (now1 now2 : Z) (mov1 mov2 : MovimentacaoCreate.t)
  (n : nat) (c c' : config) :
  steps_n now1 now2 mov1 mov2 n c c' ->
  (n + remaining (left_at c') + remaining (right_at c')
   <= remaining (left_at c) + remaining (right_at c))%nat.
Proof.
  induction 1 as [c | n c c' c'' _ IH Hstep]; [lia |].
  apply step_remaining in Hstep. lia.
Qed.

(** X14: two handlers, whatever their requests, answer after at most 14
    statements between them, 7 each, and never block each other for good:
    a run from the start has no more than 14 steps, and where it stands
    either both have answered or one of them can run its next statement. *)
Theorem handlers_terminate
  (now1 now2 : Z) (mov1 mov2 : MovimentacaoCreate.t) (db0 : Database)
  (n : nat) (c : config) :
  steps_n now1 now2 mov1 mov2 n (start db0) c ->
  (n <= 14)%nat /\
  (finished c \/ exists c', step now1 now2 mov1 mov2 c c') /\
  (n = 14%nat -> finished c).
Proof.
  intros Hrun. pose proof (steps_n_remaining _ _ _ _ _ _ _ Hrun) as Hrem.
  cbn in Hrem. split; [lia |]. split; [apply step_or_finished |].
  intros ->. destruct c as [db a b]. cbn in Hrem.
  destruct a; cbn in Hrem; try lia. destruct b; cbn in Hrem; try lia.
  do 2 eexists. split; reflexivity.
Qed.

(** ** The movement form of the dashboard *)

Lemma lancar_movimentacao_raises
  (faults : list (option string)) (now : Z) (mov : MovimentacaoCreate.t)
  (db : Database) (e : exn) :
  fst (lancar_movimentacao faults now mov db) = Raise e ->
  exists c d, e = HTTPException c d /\ (c = 400 \/ c = 404 \/ c = 500).
Proof.
  destruct mov as [k tipo q]. destruct db as [t i].
  unfold lancar_movimentacao. cbn.
  destruct (tipo_valido tipo) eqn:Htipo; cbn;
    [| intros [= <-]; do 2 eexists; split; [reflexivity | auto]].
  apply tipo_valido_cases in Htipo. destruct Htipo as [-> | ->]; cbn.
  - run_session;
      try (intros [= <-]; do 2 eexists; split; [reflexivity | auto]);
      (destruct (find _ (saldo_estoque t)) as [row |]; cbn;
       [| intros [= <-]; do 2 eexists; split; [reflexivity | auto]]);
      repeat next_round_trip;
      try (intros [= <-]; do 2 eexists; split; [reflexivity | auto]);
      discriminate.
  - run_session;
      try (intros [= <-]; do 2 eexists; split; [reflexivity | auto]);
      (destruct (find _ (saldo_estoque t)) as [row |]; cbn;
       [| intros [= <-]; do 2 eexists; split; [reflexivity | auto]]);
      (destruct (q >? Saldo.saldo_atual row); cbn;
       [intros [= <-]; do 2 eexists; split; [reflexivity | auto] |]);
      repeat next_round_trip;
      try (intros [= <-]; do 2 eexists; split; [reflexivity | auto]);
      try (destruct (find _ (produto t)); cbn);
      discriminate.
Qed.

Lemma snd_post_movimentacoes
  (faults : list (option string)) (now : Z) (data : MovimentacaoCreate.t)
  (db : Database) :
  snd (post_movimentacoes faults now data db) =
  snd (lancar_movimentacao faults now data db).
Proof.
  unfold post_movimentacoes.
  destruct (lancar_movimentacao faults now data db) as [[r | [c d | m]] db'];
    reflexivity.
Qed.

Lemma tipo_map_valid (tipo t : string) :
  tipo_map tipo = Some t -> t = "E" \/ t = "S".
Proof.
  unfold tipo_map. destruct (tipo =? "Entrada"); [intros [= <-]; auto |].
  destruct (tipo =? "Saída"); [intros [= <-]; auto | discriminate].
Qed.

(** What a submission of the form does to the database: nothing, or what
    the posting of a well-formed request does. *)
Lemma mov_form_submit_db (API_URL : string) (via : link)
  (faults : list (option string)) (now : Z) (mov_sku mov_tipo : string)
  (mov_qtd : Z) (db : Database) :
  snd (mov_form_submit API_URL via faults now mov_sku mov_tipo mov_qtd db) = db
  \/
  exists t,
    tipo_map mov_tipo = Some t /\ mov_sku <> "" /\ mov_qtd > 0 /\
    snd (mov_form_submit API_URL via faults now mov_sku mov_tipo mov_qtd db) =
    run_op (PostMovement faults now (movimentacao mov_sku t mov_qtd)) db.
Proof.
  unfold mov_form_submit.
  destruct (mov_sku =? "") eqn:Hsku; cbn; [left; reflexivity |].
  destruct (mov_qtd <=? 0)%Z eqn:Hq; cbn; [left; reflexivity |].
  apply String.eqb_neq in Hsku. apply Z.leb_gt in Hq.
  unfold api_lancar_movimentacao.
  destruct (tipo_map mov_tipo) as [t |] eqn:Ht; [| left; reflexivity].
  destruct via; [left; reflexivity | |];
    right; exists t; (split; [reflexivity |]);
    (split; [exact Hsku |]); (split; [lia |]); cbn [run_op].
  - apply snd_post_movimentacoes.
  - rewrite <- snd_post_movimentacoes. unfold movimentacao.
    destruct (post_movimentacoes _ _ _ _). reflexivity.
Qed.

Lemma snd_post_produtos
  (faults : list (option string)) (now : Z) (data : ProdutoCreate.t)
  (db : Database) :
  snd (post_produtos faults now data db) =
  snd (cadastrar_produto faults now data db).
Proof.
  unfold post_produtos.
  destruct (cadastrar_produto faults now data db) as [[r | [c d | m]] db'];
    reflexivity.
Qed.

(** What a submission of the registration form does to the database:
    nothing, or what the registration of a product with a SKU and a name
    does. *)
Lemma prod_form_submit_db (API_URL : string) (via : link)
  (faults : list (option string)) (now : Z) (prod_sku prod_nome : string)
  (prod_min prod_max : Z) (prod_custo : float) (db : Database) :
  snd (prod_form_submit API_URL via faults now prod_sku prod_nome prod_min
         prod_max prod_custo db) = db
  \/
  prod_sku <> "" /\ prod_nome <> "" /\
  snd (prod_form_submit API_URL via faults now prod_sku prod_nome prod_min
         prod_max prod_custo db) =
  run_op (Register faults now
            {| ProdutoCreate.sku_id := prod_sku;
               ProdutoCreate.nome := prod_nome;
               ProdutoCreate.nivel_minimo := prod_min;
               ProdutoCreate.nivel_maximo := prod_max;
               ProdutoCreate.custo_fabricacao := prod_custo |}) db.
Proof.
  unfold prod_form_submit.
  destruct (prod_sku =? "") eqn:Hsku; cbn; [left; reflexivity |].
  destruct (prod_nome =? "") eqn:Hnome; cbn; [left; reflexivity |].
  apply String.eqb_neq in Hsku. apply String.eqb_neq in Hnome.
  unfold api_cadastrar_produto.
  destruct via; [left; reflexivity | |];
    right; (split; [exact Hsku |]); (split; [exact Hnome |]); cbn [run_op].
  - apply snd_post_produtos.
  - rewrite <- snd_post_produtos.
    destruct (post_produtos _ _ _ _). reflexivity.
Qed.

Lemma run_event_consistent (API_URL : string) (e : event) (db : Database) :
  through_the_form e = true ->
  ledger_consistent (tables db) ->
  ledger_consistent (tables (run_event API_URL e db)).
Proof.
  intros He Hdb.
  destruct e as [via f n k tipo q | via f n k nome mn mx cu | o]; cbn in *.
  - destruct (mov_form_submit_db API_URL via f n k tipo q db)
      as [-> | (t & Ht & _ & Hq & ->)]; [exact Hdb |].
    apply run_op_consistent; [| exact Hdb]. cbn.
    split; [exact (tipo_map_valid _ _ Ht) | exact Hq].
  - destruct (prod_form_submit_db API_URL via f n k nome mn mx cu db)
      as [-> | (_ & _ & ->)]; [exact Hdb |].
    apply run_op_consistent; [exact I | exact Hdb].
  - apply run_op_consistent; [| exact Hdb].
    destruct o; cbn in *; try exact I. discriminate.
Qed.

(** X15: postings that go through the form of the dashboard cannot drive a
    balance below zero.  After any sequence of submissions of the two
    forms, whatever is typed into them and whatever the link and the engine
    do, and of calls of the other three endpoints, from the empty database,
    every
    balance row holds the sum of the signed movements of its SKU and is not
    negative: the form refuses an empty SKU and a quantity below 1 and
    sends 'E' or 'S' only. *)
Theorem form_postings_keep_balances
  (API_URL : string) (es : list event) (row : Saldo.row) :
  forallb through_the_form es = true ->
  let t := tables (run_events API_URL es empty_database) in
  In row (saldo_estoque t) ->
  Saldo.saldo_atual row =
  signed_sum (Saldo.sku_id row) (movimentacao_estoque t) /\
  0 <= Saldo.saldo_atual row.
Proof.
  intros Hes t Hin.
  assert (H : forall db, ledger_consistent (tables db) ->
                         ledger_consistent (tables (run_events API_URL es db))).
  { clear Hin t. induction es as [| e es IH]; intros db Hdb; cbn;
      [exact Hdb |].
    cbn in Hes. apply andb_true_iff in Hes. destruct Hes as [He Hes].
    apply (IH Hes). apply run_event_consistent; assumption. }
  specialize (H empty_database ledger_consistent_empty). fold t in H.
  pose proof (find_saldo_of_In t row (balance_unique t H) Hin) as Hrow.
  exact (balance_is_sum t H _ row Hrow).
Qed.

(** X16: what a submission of the form shows.  With an empty SKU or a
    quantity below 1 it shows its one warning and sends nothing.  Otherwise,
    with one of the two labels of the select box and the answer of the
    server delivered, the script raises nothing and shows, when the posting
    returned, the new balance, followed by the alert exactly when the
    posting set it; and when the posting raised, one error with the detail
    of its HTTP error. *)
Theorem form_page
  (API_URL : string) (via : link) (faults : list (option string)) (now : Z)
  (mov_sku mov_tipo t : string) (mov_qtd : Z) (db : Database) :
  tipo_map mov_tipo = Some t ->
  ((mov_sku = "" \/ mov_qtd <= 0) ->
   mov_form_submit API_URL via faults now mov_sku mov_tipo mov_qtd db =
   ({| shown := [st_warning "Preencha todos os campos corretamente."];
       raised := None |}, db)) /\
  (mov_sku <> "" -> mov_qtd > 0 ->
   mov_form_submit API_URL Delivered faults now mov_sku mov_tipo mov_qtd db =
   (match fst (lancar_movimentacao faults now
                 (movimentacao mov_sku t mov_qtd) db) with
    | Return r =>
      {| shown :=
           st_success ("Movimentação registrada! Novo Saldo: "
                       ++ str_int (novo_saldo r))
           :: (if alerta_estoque_minimo r
               then [alerta_abaixo_do_minimo] else []);
         raised := None |}
    | Raise e =>
      {| shown := [st_error ("Erro na movimentação: " ++ str_exn e)];
         raised := None |}
    end,
    snd (lancar_movimentacao faults now (movimentacao mov_sku t mov_qtd) db))).
Proof.
  intros Ht. split.
  - intros Hbad. unfold mov_form_submit.
    destruct Hbad as [-> | Hq]; [reflexivity |].
    apply Z.leb_le in Hq. rewrite Hq, orb_true_r. reflexivity.
  - intros Hsku Hq. unfold mov_form_submit.
    apply String.eqb_neq in Hsku. rewrite Hsku.
    assert (Hq' : (mov_qtd <=? 0)%Z = false) by (apply Z.leb_gt; lia).
    rewrite Hq'. cbn [orb].
    unfold api_lancar_movimentacao. rewrite Ht.
    unfold post_movimentacoes, movimentacao.
    pose proof (lancar_movimentacao_raises faults now
                  {| MovimentacaoCreate.sku_id := mov_sku;
                     MovimentacaoCreate.tipo_movimentacao := t;
                     MovimentacaoCreate.quantidade := mov_qtd |} db) as Herr.
    destruct (lancar_movimentacao faults now _ db) as [[r | e] db'];
      cbn in *; [reflexivity |].
    destruct (Herr e eq_refl) as (c & d & -> & Hc).
    cbn. destruct Hc as [-> | [-> | ->]]; reflexivity.
Qed.

Lemma form_page_witness :
  mov_form_submit "http://localhost:8000" Delivered [] 103 "A1" "Saída" 50
    db_A1_3 =
  ({| shown :=
        [st_error
           "Erro na movimentação: Estoque insuficiente. Saldo atual: 3"];
      raised := None |}, db_A1_3).
Proof.
  assert (Hsku : "A1" <> "") by discriminate.
  exact (proj2 (form_page "http://localhost:8000" Delivered [] 103
                  "A1" "Saída" "S" 50 db_A1_3 eq_refl) Hsku eq_refl).
Defined.

Lemma run_op_produto (o : op) (db : Database) :
  (forall f n p, o <> Register f n p) ->
  produto (tables (run_op o db)) = produto (tables db).
Proof.
  intros Ho. destruct o as [f n p | f n m | f k | f]; cbn.
  - exfalso. exact (Ho f n p eq_refl).
  - destruct (lancar_movimentacao_effect f n m db)
      as [[-> _] | (row & _ & _ & -> & _)]; reflexivity.
  - rewrite consultar_saldo_effect. reflexivity.
  - rewrite listar_produtos_unchanged. reflexivity.
Qed.

Lemma run_event_named (API_URL : string) (e : event) (db : Database) :
  registered_in_the_form e = true ->
  named (tables db) -> named (tables (run_event API_URL e db)).
Proof.
  intros He Hdb.
  destruct e as [via f n k tipo q | via f n k nome mn mx cu | o]; cbn in *.
  - destruct (mov_form_submit_db API_URL via f n k tipo q db)
      as [-> | (t & _ & _ & _ & ->)]; [exact Hdb |].
    unfold named. rewrite run_op_produto; [exact Hdb | discriminate].
  - destruct (prod_form_submit_db API_URL via f n k nome mn mx cu db)
      as [-> | (Hk & Hnome & ->)]; [exact Hdb |].
    cbn.
    destruct (cadastrar_produto_effect f n
                {| ProdutoCreate.sku_id := k; ProdutoCreate.nome := nome;
                   ProdutoCreate.nivel_minimo := mn;
                   ProdutoCreate.nivel_maximo := mx;
                   ProdutoCreate.custo_fabricacao := cu |} db)
      as [[-> _] | (_ & _ & ->)]; [exact Hdb |].
    unfold named, registered. cbn. apply Forall_app. split; [exact Hdb |].
    constructor; [cbn; auto | constructor].
  - unfold named. rewrite run_op_produto; [exact Hdb |].
    intros f n p ->. discriminate.
Qed.

(** X17: products registered through the form of the dashboard have a SKU
    and a name.  After any sequence of submissions of the two forms and of
    calls of the endpoints other than the registration, from the empty
    database, no product row has an empty [sku_id] or an empty [nome]; the
    endpoint itself accepts both. *)
Theorem form_products_are_named (API_URL : string) (es : list event) :
  forallb registered_in_the_form es = true ->
  named (tables (run_events API_URL es empty_database)) /\
  exists db',
    cadastrar_produto [] 100
      {| ProdutoCreate.sku_id := ""; ProdutoCreate.nome := "";
         ProdutoCreate.nivel_minimo := 0; ProdutoCreate.nivel_maximo := 0;
         ProdutoCreate.custo_fabricacao := 0%float |} empty_database =
    (Return {| cad_message :=
                 "Produto cadastrado e saldo inicializado com sucesso.";
               cad_sku := "" |}, db') /\
    ~ named (tables db').
Proof.
  intros Hes. split.
  - assert (H : forall db, named (tables db) ->
                           named (tables (run_events API_URL es db))).
    { induction es as [| e es IH]; intros db Hdb; cbn; [exact Hdb |].
      cbn in Hes. apply andb_true_iff in Hes. destruct Hes as [He Hes].
      apply (IH Hes). apply run_event_named; assumption. }
    apply H. constructor.
  - eexists. split; [vm_compute; reflexivity |].
    intros H. inversion H as [| ? ? [Hsku _] _]; subst. apply Hsku.
    reflexivity.
Qed.

Lemma cadastrar_produto_raises
  (faults : list (option string)) (now : Z) (p : ProdutoCreate.t)
  (db : Database) (e : exn) :
  first_fault faults = None ->
  fst (cadastrar_produto faults now p db) = Raise e ->
  exists c d, e = HTTPException c d /\ (c = 400 \/ c = 500).
Proof.
  destruct db as [t i]. unfold cadastrar_produto.
  run_session; try discriminate; intros _;
    (destruct (find _ (produto t)) eqn:Hp; cbn;
     [intros [= <-]; do 2 eexists; split; [reflexivity | auto] |]);
    repeat next_round_trip;
    try (intros [= <-]; do 2 eexists; split; [reflexivity | auto]);
    rewrite ?(find_existsb_None _ _ Hp); cbn;
    repeat next_round_trip;
    try (intros [= <-]; do 2 eexists; split; [reflexivity | auto]);
    (destruct (existsb _ (saldo_estoque t)); cbn);
    repeat next_round_trip;
    try (intros [= <-]; do 2 eexists; split; [reflexivity | auto]);
    discriminate.
Qed.

(** X18: what a submission of the registration form shows.  With a SKU and
    a name typed in, the answer of the server delivered and the engine
    answering the first select, the script raises nothing and shows the
    success message exactly when the registration returned, and otherwise
    one error with the detail of its HTTP error; the database is the one the
    registration left.  With an empty SKU or an empty name it shows its one
    warning and sends nothing. *)
Theorem prod_form_page
  (API_URL : string) (via : link) (faults : list (option string)) (now : Z)
  (prod_sku prod_nome : string) (prod_min prod_max : Z) (prod_custo : float)
  (db : Database) :
  let data :=
    {| ProdutoCreate.sku_id := prod_sku;
       ProdutoCreate.nome := prod_nome;
       ProdutoCreate.nivel_minimo := prod_min;
       ProdutoCreate.nivel_maximo := prod_max;
       ProdutoCreate.custo_fabricacao := prod_custo |} in
  ((prod_sku = "" \/ prod_nome = "") ->
   prod_form_submit API_URL via faults now prod_sku prod_nome prod_min
     prod_max prod_custo db =
   ({| shown := [st_warning "SKU e Nome são obrigatórios."];
       raised := None |}, db)) /\
  (prod_sku <> "" -> prod_nome <> "" -> first_fault faults = None ->
   prod_form_submit API_URL Delivered faults now prod_sku prod_nome prod_min
     prod_max prod_custo db =
   (match fst (cadastrar_produto faults now data db) with
    | Return _ =>
      {| shown :=
           [st_success ("Produto " ++ prod_sku ++ " cadastrado com sucesso!")];
         raised := None |}
    | Raise e =>
      {| shown := [st_error ("Erro ao cadastrar: " ++ str_exn e)];
         raised := None |}
    end,
    snd (cadastrar_produto faults now data db))).
Proof.
  cbn zeta. split.
  - intros Hbad. unfold prod_form_submit.
    destruct Hbad as [-> | ->]; [reflexivity |].
    rewrite String.eqb_refl, orb_true_r. reflexivity.
  - intros Hsku Hnome Hfirst. unfold prod_form_submit.
    apply String.eqb_neq in Hsku. apply String.eqb_neq in Hnome.
    rewrite Hsku, Hnome. cbn [orb].
    unfold api_cadastrar_produto, post_produtos.
    pose proof (cadastrar_produto_raises faults now
                  {| ProdutoCreate.sku_id := prod_sku;
                     ProdutoCreate.nome := prod_nome;
                     ProdutoCreate.nivel_minimo := prod_min;
                     ProdutoCreate.nivel_maximo := prod_max;
                     ProdutoCreate.custo_fabricacao := prod_custo |} db)
      as Herr.
    destruct (cadastrar_produto faults now _ db) as [[r | e] db'];
      cbn in *; [reflexivity |].
    destruct (Herr e Hfirst eq_refl) as (c & d & -> & Hc).
    cbn. destruct Hc as [-> | ->]; reflexivity.
Qed.

(** ** Instances *)

Lemma sku_registered_once_witness :
  snd (cadastrar_produto [] 200 produto_A1 db_A1_10) = db_A1_10 /\
  (fst (cadastrar_produto [] 200 produto_A1 db_A1_10) =
   Raise (HTTPException 400 "SKU já cadastrado.") \/
   exists msg,
     fst (cadastrar_produto [] 200 produto_A1 db_A1_10) =
     Raise (DBAPIError msg)) /\
  find_produto "A1" (tables db_A1_10) =
  Some {| Produto.sku_id := "A1"; Produto.nome := "Parafuso";
          Produto.nivel_minimo := 5; Produto.nivel_maximo := 100;
          Produto.custo_fabricacao := 2.0%float |}.
Proof.
  exact (sku_registered_once [] [] 100 200 produto_A1 produto_A1
           empty_database db_A1_0 (cadastro_ok produto_A1)
           [PostMovement [] 101 (movimentacao "A1" "E" 10)] eq_refl eq_refl).
Defined.

Lemma fresh_sku_is_empty_witness :
  consultar_saldo [] "A1" db_A1_0 =
  (Return {| Saldo.sku_id := "A1"; Saldo.saldo_atual := 0;
             Saldo.ultima_atualizacao := 100 |}, db_A1_0) /\
  lancar_movimentacao [] 105 (movimentacao "A1" "S" 4) db_A1_0 =
  (Raise (HTTPException 400 "Estoque insuficiente. Saldo atual: 0"), db_A1_0).
Proof.
  exact (fresh_sku_is_empty [] 100 105 produto_A1 empty_database db_A1_0
           (cadastro_ok produto_A1) 4 eq_refl eq_refl).
Defined.



Lemma handlers_terminate_witness :
  (1 <= 14)%nat /\
  (finished
     {| shared := db_A1_3; left_at := AtSelect; right_at := AtStart |} \/
   exists c',
     step 103 104 (movimentacao "A1" "S" 2) (movimentacao "A1" "S" 2)
       {| shared := db_A1_3; left_at := AtSelect; right_at := AtStart |} c') /\
  (1%nat = 14%nat ->
   finished
     {| shared := db_A1_3; left_at := AtSelect; right_at := AtStart |}).
Proof.
  exact (handlers_terminate 103 104 (movimentacao "A1" "S" 2)
           (movimentacao "A1" "S" 2) db_A1_3 1
           {| shared := db_A1_3; left_at := AtSelect; right_at := AtStart |}
           (steps_n_S 103 104 _ _ 0 (start db_A1_3) (start db_A1_3) _
              (steps_n_O 103 104 _ _ (start db_A1_3))
              (step_left 103 104 (movimentacao "A1" "S" 2)
                 (movimentacao "A1" "S" 2) (start db_A1_3) db_A1_3 AtSelect
                 eq_refl))).
Defined.

Lemma form_postings_keep_balances_witness :
  3 = signed_sum "A1"
        (movimentacao_estoque
           (tables (run_events "http://localhost:8000" dia_no_painel
                      empty_database))) /\
  0 <= 3.
Proof.
  exact (form_postings_keep_balances "http://localhost:8000" dia_no_painel
           {| Saldo.sku_id := "A1"; Saldo.saldo_atual := 3;
              Saldo.ultima_atualizacao := 102 |}
           eq_refl (or_introl eq_refl)).
Defined.

Lemma form_products_are_named_witness :
  named (tables (run_events "http://localhost:8000" dia_no_painel
                   empty_database)).
Proof.
  exact (proj1 (form_products_are_named "http://localhost:8000"
                  dia_no_painel eq_refl)).
Defined.

Lemma prod_form_page_witness :
  prod_form_submit "http://localhost:8000" Delivered [] 200 "A1" "Parafuso"
    5 100 2.0%float db_A1_3 =
  ({| shown := [st_error "Erro ao cadastrar: SKU já cadastrado."];
      raised := None |}, db_A1_3).
Proof.
  assert (Hsku : "A1" <> "") by discriminate.
  assert (Hnome : "Parafuso" <> "") by discriminate.
  exact (proj2 (prod_form_page "http://localhost:8000" Delivered [] 200
                  "A1" "Parafuso" 5 100 2.0%float db_A1_3)
           Hsku Hnome eq_refl).
Defined.

(** ** Reading after writing *)

Lemma in_join_saldo (t : Tables) (p : Produto.row) (s : Saldo.row) :
  In (p, s) (join_produto_saldo t) ->
  In s (saldo_estoque t) /\ Produto.sku_id p = Saldo.sku_id s.
Proof.
  unfold join_produto_saldo. intros H. apply in_flat_map in H.
  destruct H as (p' & _ & H). apply in_map_iff in H.
  destruct H as (s' & [= -> ->] & H). apply filter_In in H.
  destruct H as [Hin E]. apply String.eqb_eq in E. auto.
Qed.

Lemma In_find_saldo (t : Tables) (s : Saldo.row) :
  In s (saldo_estoque t) -> find_saldo (Saldo.sku_id s) t <> None.
Proof.
  intros Hin Hnone. apply find_saldo_None_not_In in Hnone. apply Hnone.
  apply in_map. exact Hin.
Qed.

Lemma run_keeps_balance_row (ops : list op) (db : Database) (k : string) :
  find_saldo k (tables db) <> None ->
  find_saldo k (tables (run ops db)) <> None.
Proof.
  intros Hk Hnone. destruct (run_grows ops db) as (_ & _ & [l Hl]).
  apply find_saldo_None_not_In in Hnone. apply Hnone. rewrite Hl.
  apply in_or_app. left.
  destruct (find_saldo k (tables db)) as [row |] eqn:Hrow; [| congruence].
  rewrite <- (find_saldo_key _ _ _ Hrow). apply in_map.
  unfold find_saldo in Hrow. apply find_some in Hrow. apply Hrow.
Qed.

(** X19: a SKU that [listar_produtos] has listed can be consulted from then
    on: whatever the database was and whatever calls came after the
    listing, storage failures included, [consultar_saldo] on that SKU
    returns a balance row of that SKU and never the 404. *)
Theorem listed_sku_can_be_consulted
  (db : Database) (items : list ProdutoListado) (item : ProdutoListado)
  (later : list op) :
  listar_produtos [] db = (Return items, db) ->
  In item items ->
  exists row,
    consultar_saldo [] (l_SKU item) (run later db) =
    (Return row, run later db) /\
    Saldo.sku_id row = l_SKU item.
Proof.
  intros Hlist Hin. rewrite listar_produtos_ok in Hlist.
  injection Hlist as <-. apply in_map_iff in Hin.
  destruct Hin as ([p s] & <- & Hin). cbn.
  apply in_join_saldo in Hin. destruct Hin as [Hs Hk]. rewrite Hk.
  pose proof (run_keeps_balance_row later db _ (In_find_saldo _ _ Hs)) as Hrow.
  rewrite consultar_saldo_effect. cbn [first_fault].
  destruct (find_saldo (Saldo.sku_id s) (tables (run later db)))
    as [row |] eqn:E; [| congruence].
  exists row. split; [reflexivity | exact (find_saldo_key _ _ _ E)].
Qed.

Lemma listed_sku_can_be_consulted_witness :
  exists row,
    consultar_saldo [] "A1"
      (run [PostMovement [] 140 (movimentacao "A1" "S" 10);
            Register [None; Some "deadlock detected"] 150 produto_A1]
         db_A1_B7) =
    (Return row,
     run [PostMovement [] 140 (movimentacao "A1" "S" 10);
          Register [None; Some "deadlock detected"] 150 produto_A1]
       db_A1_B7) /\
    Saldo.sku_id row = "A1".
Proof.
  exact (listed_sku_can_be_consulted db_A1_B7
           (fst_items (listar_produtos [] db_A1_B7))
           {| l_SKU := "A1"; l_Nome := "Parafuso"; l_Saldo_Atual := 10;
              l_Nivel_Minimo := 5; l_Custo := 2.0%float;
              l_Ultima_Atualizacao := 120 |}
           [PostMovement [] 140 (movimentacao "A1" "S" 10);
            Register [None; Some "deadlock detected"] 150 produto_A1]
           eq_refl (or_introl eq_refl)).
Defined.

Lemma last_movement_app (k : string) (movs : list Movimentacao.row)
  (m : Movimentacao.row) :
  last_movement k (movs ++ [m]) =
  if Movimentacao.sku_id m =? k
  then Some (Movimentacao.data_movimentacao m)
  else last_movement k movs.
Proof.
  unfold last_movement. rewrite rev_app_distr. cbn.
  destruct (Movimentacao.sku_id m =? k); reflexivity.
Qed.

Lemma run_op_timestamps (o : op) (db : Database) :
  timestamps_agree (tables db) -> timestamps_agree (tables (run_op o db)).
Proof.
  intros Hdb. destruct o as [f n p | f n m | f k0 | f]; cbn.
  - destruct (cadastrar_produto_effect f n p db) as [[-> _] | (_ & _ & ->)];
      [exact Hdb |].
    cbn. intros k. specialize (Hdb k). unfold registered. cbn.
    destruct (last_movement k _) as [time |]; [| exact I].
    destruct Hdb as (row & Hrow & Htime). exists row.
    split; [| exact Htime]. unfold find_saldo in *. cbn.
    apply find_app_Some. exact Hrow.
  - destruct (lancar_movimentacao_effect f n m db)
      as [[-> _] | (row0 & Hrow0 & _ & -> & _)]; [exact Hdb |].
    cbn. intros k. specialize (Hdb k). unfold posted. cbn.
    rewrite last_movement_app. cbn.
    destruct (String.eqb_spec (MovimentacaoCreate.sku_id m) k) as [<- | Hk].
    + eexists. split.
      * unfold find_saldo in *. cbn.
        rewrite (find_set_saldo _ _ _ _ _ Hrow0). reflexivity.
      * reflexivity.
    + destruct (last_movement k _) as [time |]; [| exact I].
      destruct Hdb as (row & Hrow & Htime). exists row.
      split; [| exact Htime]. unfold find_saldo in *. cbn.
      rewrite find_set_saldo_other by congruence. exact Hrow.
  - rewrite consultar_saldo_effect. exact Hdb.
  - rewrite listar_produtos_unchanged. exact Hdb.
Qed.

Lemma run_timestamps (ops : list op) (db : Database) :
  timestamps_agree (tables db) -> timestamps_agree (tables (run ops db)).
Proof.
  revert db. induction ops as [| o ops IH]; intros db Hdb; cbn; [exact Hdb |].
  apply IH. apply run_op_timestamps. exact Hdb.
Qed.

(** X20: in the database any sequence of calls builds from the empty one,
    a SKU that has movements has a balance row, and the timestamp
    [consultar_saldo] answers for it is the time of its latest movement in
    the log: the posting writes both in one transaction. *)
Theorem balance_timestamp_is_latest_movement
  (ops : list op) (k : string) (time : Z) :
  let db := run ops empty_database in
  last_movement k (movimentacao_estoque (tables db)) = Some time ->
  exists row,
    consultar_saldo [] k db = (Return row, db) /\
    Saldo.ultima_atualizacao row = time.
Proof.
  intros db Hlast.
  assert (H0 : timestamps_agree (tables empty_database))
    by (intros k'; exact I).
  pose proof (run_timestamps ops _ H0 k) as H. fold db in H.
  rewrite Hlast in H.
  destruct H as (row & Hrow & Htime). exists row.
  rewrite consultar_saldo_effect, Hrow. auto.
Qed.

Lemma balance_timestamp_is_latest_movement_witness :
  exists row,
    consultar_saldo [] "A1" (run dia_A1 empty_database) =
    (Return row, run dia_A1 empty_database) /\
    Saldo.ultima_atualizacao row = 102.
Proof.
  exact (balance_timestamp_is_latest_movement dia_A1 "A1" 102 eq_refl).
Defined.
